(** * khirolib: the upload orchestrator of [KHIRoLibLite]

    A shallow embedding of [src/khirolib/core_py3.py]: the section extractor
    [find_section], the statement validator [is_pg_valid], the upload
    orchestrator [upload_program] and the bulk deletion [delete_programs],
    followed by the properties of these functions.

    Python [str] values are embedded as [string]; a character of the
    embedding is a code point below 256, so the character tables below are
    Python's tables restricted to that range.  The functions that
    [core_py3.py] imports from [src.khi_telnet_lib] are the methods of an
    abstract client ([TelnetClient]): every property holds for every
    client. *)

From Stdlib Require Import Bool Arith ZArith Lia List Ascii String.
Import ListNotations.

Open Scope string_scope.
Open Scope list_scope.

(** ** Python builtins used by the library *)

Module Py.

(** The value of an expression that may raise: [Raise msg] stands for an
    exception [e] with [str(e) = msg]. *)
Inductive outcome (A : Type) : Type :=
| Ok (a : A)
| Raise (msg : string).
Arguments Ok {A} a.
Arguments Raise {A} msg.

Definition code (c : ascii) : N := N_of_ascii c.

(** [bool(s)] for a [str]. *)
Definition truthy (s : string) : bool := negb (s =? "")%string.

(** [s.startswith(p)]. *)
Definition startswith (s p : string) : bool := String.prefix p s.

(** [s.split(sep)] for a separator of one character. *)
Fixpoint split (sep : ascii) (s : string) : list string :=
  match s with
  | EmptyString => [EmptyString]
  | String c s' =>
      if Ascii.eqb c sep then EmptyString :: split sep s'
      else match split sep s' with
           | [] => [String c EmptyString]
           | h :: t => String c h :: t
           end
  end.

(** [s.split(sep, 1)] for a separator of one character. *)
Fixpoint split1 (sep : ascii) (s : string) : list string :=
  match s with
  | EmptyString => [EmptyString]
  | String c s' =>
      if Ascii.eqb c sep then [EmptyString; s']
      else match split1 sep s' with
           | [] => [String c EmptyString]
           | h :: t => String c h :: t
           end
  end.

(** [sep in s] for a [sep] of one character. *)
Fixpoint contains (sep : ascii) (s : string) : bool :=
  match s with
  | EmptyString => false
  | String c s' => Ascii.eqb c sep || contains sep s'
  end.

(** [sep.join(l)]. *)
Definition join (sep : string) (l : list string) : string := String.concat sep l.

(** [l[i:j]]  for [0 <= i] and [0 <= j]. *)
Definition slice {A : Type} (l : list A) (i j : nat) : list A :=
  firstn (j - i) (skipn i l).

(** [c.isspace()]: below 256 these are the controls 9-13 and 28-31, the
    space, NEL (133) and the no-break space (160). *)
Definition isspace (c : ascii) : bool :=
  let n := code c in
  ((9 <=? n) && (n <=? 13) || (28 <=? n) && (n <=? 32) || (n =? 133) || (n =? 160))%N.

(** [c.isdigit()]: below 256 these are 0-9 and the superscript digits
    two, three and one (178, 179, 185), which have the Unicode property
    Numeric_Type=Digit. *)
Definition isdigit_char (c : ascii) : bool :=
  let n := code c in
  ((48 <=? n) && (n <=? 57) || (n =? 178) || (n =? 179) || (n =? 185))%N.

(** The decimal digits 0-9. *)
Definition isdecimal_char (c : ascii) : bool :=
  let n := code c in ((48 <=? n) && (n <=? 57))%N.

Fixpoint all_chars (p : ascii -> bool) (s : string) : bool :=
  match s with
  | EmptyString => true
  | String c s' => p c && all_chars p s'
  end.

(** [s.isdigit()]: at least one character, and all of them digits. *)
Definition isdigit (s : string) : bool := truthy s && all_chars isdigit_char s.

(** [s.lower()]: below 256 the cased capitals are A-Z and the letters
    192-222 other than the multiplication sign (215); each maps 32 up. *)
Definition lower_char (c : ascii) : ascii :=
  let n := code c in
  if ((65 <=? n) && (n <=? 90) || (192 <=? n) && (n <=? 222) && negb (n =? 215))%N
  then ascii_of_N (n + 32) else c.

Fixpoint lower (s : string) : string :=
  match s with
  | EmptyString => EmptyString
  | String c s' => String (lower_char c) (lower s')
  end.

Fixpoint lstrip (s : string) : string :=
  match s with
  | EmptyString => EmptyString
  | String c s' => if isspace c then lstrip s' else s
  end.

Fixpoint rstrip (s : string) : string :=
  match s with
  | EmptyString => EmptyString
  | String c s' =>
      let r := rstrip s' in
      if isspace c && negb (truthy r) then EmptyString else String c r
  end.

(** [s.strip()]. *)
Definition strip (s : string) : string := rstrip (lstrip s).

(** The scan of [s.split()]: the token that is open at the head of [s], and
    the tokens after it. *)
Fixpoint split_ws_go (s : string) : string * list string :=
  match s with
  | EmptyString => (EmptyString, [])
  | String c s' =>
      let (tok, toks) := split_ws_go s' in
      if isspace c then (EmptyString, if truthy tok then tok :: toks else toks)
      else (String c tok, toks)
  end.

(** [s.split()]: the maximal runs of characters that are not whitespace. *)
Definition split_ws (s : string) : list string :=
  let (tok, toks) := split_ws_go s in
  if truthy tok then tok :: toks else toks.

(** [a << n] on integers. *)
Definition lshift (a n : Z) : outcome Z :=
  if (n <? 0)%Z then Raise "negative shift count" else Ok (Z.shiftl a n).

(** [bytes(s, "utf-8")]: one byte for a code point below 128, two for one
    below 256. *)
Definition utf8_char (c : ascii) : list N :=
  let n := code c in
  if (n <? 128)%N then [n] else [192 + n / 64; 128 + n mod 64]%N.

Fixpoint utf8 (s : string) : list N :=
  match s with
  | EmptyString => []
  | String c s' => utf8_char c ++ utf8 s'
  end.

(** [float(s)] returns for the strings accepted below and raises
    [ValueError] for the others.  The text is stripped of the whitespace
    that [float] skips; an underscore may only stand between two digits;
    what is left is an optional sign followed by [inf], [infinity] or
    [nan] in any case, or by a decimal number with an optional exponent. *)
Definition float_space (c : ascii) : bool :=
  let n := code c in ((9 <=? n) && (n <=? 13) || (n =? 32) || (n =? 133) || (n =? 160))%N.

Fixpoint float_lstrip (s : string) : string :=
  match s with
  | EmptyString => EmptyString
  | String c s' => if float_space c then float_lstrip s' else s
  end.

Fixpoint float_rstrip (s : string) : string :=
  match s with
  | EmptyString => EmptyString
  | String c s' =>
      let r := float_rstrip s' in
      if float_space c && negb (truthy r) then EmptyString else String c r
  end.

Definition is_underscore (c : ascii) : bool := (code c =? 95)%N.

Fixpoint underscores_ok (prev : ascii) (s : string) : bool :=
  match s with
  | EmptyString => negb (is_underscore prev)
  | String c s' =>
      (if is_underscore c then isdecimal_char prev
       else negb (is_underscore prev) || isdecimal_char c)
      && underscores_ok c s'
  end.

Fixpoint remove_underscores (s : string) : string :=
  match s with
  | EmptyString => EmptyString
  | String c s' =>
      if is_underscore c then remove_underscores s' else String c (remove_underscores s')
  end.

Definition tolower (c : ascii) : ascii :=
  let n := code c in
  if ((65 <=? n) && (n <=? 90))%N then ascii_of_N (n + 32) else c.

Fixpoint map_chars (f : ascii -> ascii) (s : string) : string :=
  match s with
  | EmptyString => EmptyString
  | String c s' => String (f c) (map_chars f s')
  end.

Definition drop_sign (s : string) : string :=
  match s with
  | String c s' => if ((code c =? 43) || (code c =? 45))%N then s' else s
  | EmptyString => EmptyString
  end.

Fixpoint drop_digits (s : string) : string :=
  match s with
  | EmptyString => EmptyString
  | String c s' => if isdecimal_char c then drop_digits s' else s
  end.

Definition starts_digit (s : string) : bool :=
  match s with
  | String c _ => isdecimal_char c
  | EmptyString => false
  end.

(** What may follow the mantissa: nothing, or [e] or [E], an optional sign
    and at least one digit. *)
Definition exponent_ok (s : string) : bool :=
  match s with
  | EmptyString => true
  | String c s' =>
      ((code c =? 101) || (code c =? 69))%N
      && (let t := drop_sign s' in starts_digit t && negb (truthy (drop_digits t)))
  end.

Definition number_ok (s : string) : bool :=
  match s with
  | String c s' =>
      if (code c =? 46)%N then starts_digit s' && exponent_ok (drop_digits s')
      else
        starts_digit s
        && match drop_digits s with
           | String d t => if (code d =? 46)%N then exponent_ok (drop_digits t)
                           else exponent_ok (String d t)
           | EmptyString => true
           end
  | EmptyString => false
  end.

Definition inf_nan_ok (s : string) : bool :=
  let l := map_chars tolower s in
  ((l =? "inf") || (l =? "infinity") || (l =? "nan"))%string.

Definition float_parses (s : string) : bool :=
  let t := float_rstrip (float_lstrip s) in
  underscores_ok zero t
  && (let v := drop_sign (remove_underscores t) in number_ok v || inf_nan_ok v).

End Py.

Import Py.

(** ** Data model *)

(** The dataclass [UploadResult]. *)
Record UploadResult : Type := {
  program_uploaded : bool;
  trans_points_uploaded : bool;
  trans_points_exist : bool;
  joints_points_uploaded : bool;
  joints_points_exist : bool;
  program_loaded : bool;
  error_message : option string
}.

(** [UploadResult()]: the defaults of the fields. *)
Definition UploadResult_new : UploadResult :=
  {| program_uploaded := false;
     trans_points_uploaded := false;
     trans_points_exist := false;
     joints_points_uploaded := false;
     joints_points_exist := false;
     program_loaded := false;
     error_message := None |}.

Definition all_successful (self : UploadResult) : bool :=
  program_uploaded self
  && ((trans_points_uploaded self && trans_points_exist self)
      || negb (trans_points_exist self))
  && ((joints_points_uploaded self && joints_points_exist self)
      || negb (joints_points_exist self)).

(** The assignments [result.<field> = v] made by [upload_program]. *)
Definition set_program_uploaded (v : bool) (r : UploadResult) : UploadResult :=
  {| program_uploaded := v;
     trans_points_uploaded := trans_points_uploaded r;
     trans_points_exist := trans_points_exist r;
     joints_points_uploaded := joints_points_uploaded r;
     joints_points_exist := joints_points_exist r;
     program_loaded := program_loaded r;
     error_message := error_message r |}.

Definition set_trans_points_uploaded (v : bool) (r : UploadResult) : UploadResult :=
  {| program_uploaded := program_uploaded r;
     trans_points_uploaded := v;
     trans_points_exist := trans_points_exist r;
     joints_points_uploaded := joints_points_uploaded r;
     joints_points_exist := joints_points_exist r;
     program_loaded := program_loaded r;
     error_message := error_message r |}.

Definition set_trans_points_exist (v : bool) (r : UploadResult) : UploadResult :=
  {| program_uploaded := program_uploaded r;
     trans_points_uploaded := trans_points_uploaded r;
     trans_points_exist := v;
     joints_points_uploaded := joints_points_uploaded r;
     joints_points_exist := joints_points_exist r;
     program_loaded := program_loaded r;
     error_message := error_message r |}.

Definition set_joints_points_uploaded (v : bool) (r : UploadResult) : UploadResult :=
  {| program_uploaded := program_uploaded r;
     trans_points_uploaded := trans_points_uploaded r;
     trans_points_exist := trans_points_exist r;
     joints_points_uploaded := v;
     joints_points_exist := joints_points_exist r;
     program_loaded := program_loaded r;
     error_message := error_message r |}.

Definition set_joints_points_exist (v : bool) (r : UploadResult) : UploadResult :=
  {| program_uploaded := program_uploaded r;
     trans_points_uploaded := trans_points_uploaded r;
     trans_points_exist := trans_points_exist r;
     joints_points_uploaded := joints_points_uploaded r;
     joints_points_exist := v;
     program_loaded := program_loaded r;
     error_message := error_message r |}.

Definition set_program_loaded (v : bool) (r : UploadResult) : UploadResult :=
  {| program_uploaded := program_uploaded r;
     trans_points_uploaded := trans_points_uploaded r;
     trans_points_exist := trans_points_exist r;
     joints_points_uploaded := joints_points_uploaded r;
     joints_points_exist := joints_points_exist r;
     program_loaded := v;
     error_message := error_message r |}.

Definition set_error_message (v : option string) (r : UploadResult) : UploadResult :=
  {| program_uploaded := program_uploaded r;
     trans_points_uploaded := trans_points_uploaded r;
     trans_points_exist := trans_points_exist r;
     joints_points_uploaded := joints_points_uploaded r;
     joints_points_exist := joints_points_exist r;
     program_loaded := program_loaded r;
     error_message := v |}.

(** ** The telnet client

    The status objects and the functions of [src.khi_telnet_lib]. *)

Module khi_telnet_lib.

(** Modelled from the spec: the class of the status objects is declared
    in [src.khi_telnet_lib] and is missing here.  Its fields are those of
    ProgramStatusEntry in the data model, the attributes that [core_py3.py]
    reads: [thread_num], [name], [is_exist] and [is_running].  The status
    of the continuous-path program (RCP) has the same shape, and its
    [thread_num] is never read. *)
Record Status : Type := {
  thread_num : Z;
  name : string;
  is_exist : bool;
  is_running : bool
}.

(** A call of a function of the library, with its arguments other than the
    client. *)
Inductive Call : Type :=
| Get_pc_status (mask : Z)
| Get_rcp_status
| Pc_abort (mask : Z)
| Pc_kill (mask : Z)
| Rcp_hold
| Kill_rcp
| Upload_program (program_bytes : list N)
| Rcp_prime (program_name : string)
| Pg_delete (pg_name : string).

(** A client is a state on which each function of the library acts: it
    returns or raises, and leaves the client in a new state. *)
Class TelnetClient (C : Type) : Type := {
  get_pc_status : C -> Z -> outcome (list Status) * C;
  get_rcp_status : C -> outcome Status * C;
  pc_abort : C -> Z -> outcome unit * C;
  pc_kill : C -> Z -> outcome unit * C;
  rcp_hold : C -> outcome unit * C;
  kill_rcp : C -> outcome unit * C;
  upload_program : C -> list N -> outcome unit * C;
  rcp_prime : C -> string -> outcome unit * C;
  pg_delete : C -> string -> outcome unit * C
}.

End khi_telnet_lib.

Import khi_telnet_lib.

(** ** Execution of a method body

    A method body runs on a frame: the client [self._telnet_client], the
    calls of library functions made so far, in order, and the local
    [result] of [upload_program].  A statement ends normally with a value,
    by [return], or by an exception, which leaves the frame as it was when
    the exception was raised. *)

Record frame (C : Type) : Type := {
  client : C;
  issued : list Call;
  result : UploadResult
}.
Arguments client {C} f.
Arguments issued {C} f.
Arguments result {C} f.

Inductive flow (A : Type) : Type :=
| Next (a : A)
| Return
| Except (msg : string).
Arguments Next {A} a.
Arguments Return {A}.
Arguments Except {A} msg.

Definition M (C A : Type) : Type := frame C -> flow A * frame C.

Definition ret {C A : Type} (a : A) : M C A := fun f => (Next a, f).

Definition bind {C A B : Type} (m : M C A) (k : A -> M C B) : M C B :=
  fun f =>
    match m f with
    | (Next a, f') => k a f'
    | (Return, f') => (Return, f')
    | (Except msg, f') => (Except msg, f')
    end.

Notation "x <- m ;; k" := (bind m (fun x => k))
  (at level 61, m at next level, right associativity).
Notation "m ;; k" := (bind m (fun _ => k))
  (at level 61, right associativity).

(** The statement [return]. *)
Definition return_ {C A : Type} : M C A := fun f => (Return, f).

(** An expression that may raise. *)
Definition lift {C A : Type} (o : outcome A) : M C A :=
  fun f =>
    match o with
    | Ok a => (Next a, f)
    | Raise msg => (Except msg, f)
    end.

(** A call of a library function: the call is recorded, the client moves
    to its new state, and the call returns or raises. *)
Definition call {C A : Type} (ev : Call) (op : C -> outcome A * C) : M C A :=
  fun f =>
    let (o, c) := op (client f) in
    let f' := {| client := c; issued := issued f ++ [ev]; result := result f |} in
    match o with
    | Ok a => (Next a, f')
    | Raise msg => (Except msg, f')
    end.

(** An assignment to a field of [result]. *)
Definition assign {C : Type} (set : UploadResult -> UploadResult) : M C unit :=
  fun f =>
    (Next tt, {| client := client f; issued := issued f; result := set (result f) |}).

(** A [for] loop whose body ends an iteration normally or by [break]. *)
Inductive iteration : Type := Continue | Break.

Fixpoint for_each {C A : Type} (l : list A) (body : A -> M C iteration) : M C unit :=
  match l with
  | [] => ret tt
  | x :: l' =>
      it <- body x ;;
      match it with
      | Break => ret tt
      | Continue => for_each l' body
      end
  end.

(** ** The class [KHIRoLibLite] *)

Module KHIRoLibLite.

Definition nl : ascii := "010"%char.

(** The loop of [find_section] from line [i] on: [section_start] is the
    value of the variable when the iteration starts, and the value of the
    loop is that of [(section_start, section_end)] when it ends. *)
Fixpoint find_section_loop (program_name section_type : string)
    (lines : list string) (i : nat) (section_start : option nat)
    : outcome (option nat * option nat) :=
  match lines with
  | [] => Ok (section_start, None)
  | line :: rest =>
      match
        (if (section_type =? "program")%string then
           Ok (if startswith line (".PROGRAM " ++ program_name ++ "(")%string
               then Some i else section_start)
         else if (section_type =? "trans")%string then
           Ok (if startswith line ".TRANS" then Some i else section_start)
         else if (section_type =? "joints")%string then
           Ok (if startswith line ".JOINTS" then Some i else section_start)
         else Raise ("Invalid section type" ++ section_type)%string)
      with
      | Raise msg => Raise msg
      | Ok section_start =>
          match section_start with
          | Some _ =>
              if startswith line ".END" then Ok (section_start, Some i)
              else find_section_loop program_name section_type rest (S i) section_start
          | None =>
              find_section_loop program_name section_type rest (S i) section_start
          end
      end
  end.

Definition find_section (content program_name section_type : string) : outcome string :=
  let lines := split nl content in
  match find_section_loop program_name section_type lines 0 None with
  | Raise msg => Raise msg
  | Ok (Some section_start, Some section_end) =>
      Ok (join (String nl "") (slice lines section_start (section_end + 1)))
  | Ok _ => Ok ""
  end.

(** The inner loop of [is_pg_valid] over the values: [false] when the loop
    leaves the function by [return False]. *)
Fixpoint check_values (values : list string) : bool :=
  match values with
  | [] => true
  | value :: rest =>
      let value := strip value in
      if negb (truthy value) then false
      else if negb (float_parses value) then false
      else check_values rest
  end.

Fixpoint is_pg_valid_loop (lines : list string) : outcome bool :=
  match lines with
  | [] => Ok true
  | line :: rest =>
      let line := strip line in
      if truthy line && startswith line "SETCONDW" then
        let parts := split_ws line in
        if (List.length parts <? 2)%nat || negb (contains "="%char (nth 1 parts "")) then Ok false
        else
          match split1 "="%char (nth 1 parts "") with
          | [param_name; values_str] =>
              if negb (isdigit param_name) then Ok false
              else if check_values (split ","%char values_str)
                   then is_pg_valid_loop rest
                   else Ok false
          | _ => Raise "not enough values to unpack (expected 2, got 1)"
          end
      else is_pg_valid_loop rest
  end.

Definition is_pg_valid (text : string) : outcome bool :=
  is_pg_valid_loop (split nl text).

Section Methods.

Context {C : Type} `{TelnetClient C}.

Definition get_status_pc (thread_num : option Z) : M C (list Status) :=
  match thread_num with
  | None => call (Get_pc_status 31) (fun c => get_pc_status c 31)
  | Some thread_num =>
      mask <- lift (lshift 1 (thread_num - 1)) ;;
      call (Get_pc_status mask) (fun c => get_pc_status c mask)
  end.

(** Lines 123-138 of [upload_program]: the status queries and the
    commands that stop a program of the same name. *)
Definition resolve_conflicts (program_name : string) : M C unit :=
  pg_status_list <- get_status_pc None ;;
  rcp_status <- call Get_rcp_status get_rcp_status ;;
  for_each pg_status_list (fun element =>
    if is_exist element then
      if (lower (name element) =? lower program_name)%string then
        (if is_running element then
           mask <- lift (lshift 1 (thread_num element - 1)) ;;
           call (Pc_abort mask) (fun c => pc_abort c mask)
         else ret tt) ;;
        mask <- lift (lshift 1 (thread_num element - 1)) ;;
        call (Pc_kill mask) (fun c => pc_kill c mask) ;;
        ret Break
      else ret Continue
    else ret Continue) ;;
  if is_exist rcp_status then
    if (lower (name rcp_status) =? lower program_name)%string then
      (if is_running rcp_status then call Rcp_hold rcp_hold else ret tt) ;;
      call Kill_rcp kill_rcp
    else ret tt
  else ret tt.

(** Lines 140-178 of [upload_program]: the three sections and the
    optional [rcp_prime]. *)
Definition upload_sections (program_name program_text : string) (open_program : bool)
    : M C unit :=
  pg_string <- lift (find_section program_text program_name "program") ;;
  (if truthy pg_string then
     valid <- lift (is_pg_valid pg_string) ;;
     if negb valid then
       assign (set_error_message
                 (Some ("Program " ++ program_name ++ " is not valid.")%string)) ;;
       return_
     else
       let program_bytes := utf8 pg_string in
       call (Upload_program program_bytes)
            (fun c => khi_telnet_lib.upload_program c program_bytes) ;;
       assign (set_program_uploaded true)
   else
     assign (set_error_message
               (Some ("Program " ++ program_name ++ " did not found in the file.")%string)) ;;
     return_) ;;
  trans_string <- lift (find_section program_text program_name "trans") ;;
  (if truthy trans_string then
     let program_bytes := utf8 trans_string in
     call (Upload_program program_bytes)
          (fun c => khi_telnet_lib.upload_program c program_bytes) ;;
     assign (set_trans_points_uploaded true) ;;
     assign (set_trans_points_exist true)
   else assign (set_trans_points_exist false)) ;;
  joints_string <- lift (find_section program_text program_name "joints") ;;
  (if truthy joints_string then
     let program_bytes := utf8 joints_string in
     call (Upload_program program_bytes)
          (fun c => khi_telnet_lib.upload_program c program_bytes) ;;
     assign (set_joints_points_uploaded true) ;;
     assign (set_joints_points_exist true)
   else assign (set_joints_points_exist false)) ;;
  if open_program then
    call (Rcp_prime program_name) (fun c => rcp_prime c program_name) ;;
    assign (set_program_loaded true)
  else ret tt.

(** The body of the [try] statement of [upload_program]. *)
Definition upload_program_try (program_name program_text : string) (open_program : bool)
    : M C unit :=
  resolve_conflicts program_name ;;
  upload_sections program_name program_text open_program.

(** The frame in which a method starts on the client [self]. *)
Definition enter (self : C) : frame C :=
  {| client := self; issued := []; result := UploadResult_new |}.

(** [upload_program]: the frame when the method returns; its [result] is
    the value returned, its [issued] the calls made, in order. *)
Definition upload_program (self : C) (program_name program_text : string)
    (open_program : bool) : frame C :=
  match upload_program_try program_name program_text open_program (enter self) with
  | (Except msg, f) =>
      {| client := client f; issued := issued f;
         result := set_error_message (Some msg) (result f) |}
  | (_, f) => f
  end.

(** [delete_programs]: how the method ends ([Except] when the exception
    leaves the method), and the frame at that point. *)
Definition delete_programs (self : C) (pg_list : list string) (force : bool)
    : flow unit * frame C :=
  ((if (List.length pg_list =? 0)%nat then return_ else ret tt) ;;
   (if force then
      rcp_status <- call Get_rcp_status get_rcp_status ;;
      if is_exist rcp_status then
        if existsb (String.eqb (name rcp_status)) pg_list then
          (if is_running rcp_status then call Rcp_hold rcp_hold else ret tt) ;;
          call Kill_rcp kill_rcp
        else ret tt
      else ret tt
    else ret tt) ;;
   for_each pg_list (fun pg_name =>
     call (Pg_delete pg_name) (fun c => pg_delete c pg_name) ;;
     ret Continue))
    (enter self).

End Methods.

End KHIRoLibLite.

(** ** A scripted client

    A robot with fixed answers to the status queries, on which the first
    [credit] calls succeed and every later call raises; with no [credit]
    no call ever raises. *)

Module Simulator.

Record Robot : Type := {
  pc : list Status;
  rcp : Status;
  credit : option nat
}.

Definition respond {A : Type} (a : A) (r : Robot) : outcome A * Robot :=
  match credit r with
  | None => (Ok a, r)
  | Some 0 => (Raise "Connection lost", r)
  | Some (S n) => (Ok a, {| pc := pc r; rcp := rcp r; credit := Some n |})
  end.

#[export] Instance Robot_client : TelnetClient Robot := {
  get_pc_status r _ := respond (pc r) r;
  get_rcp_status r := respond (rcp r) r;
  pc_abort r _ := respond tt r;
  pc_kill r _ := respond tt r;
  rcp_hold r := respond tt r;
  kill_rcp r := respond tt r;
  upload_program r _ := respond tt r;
  rcp_prime r _ := respond tt r;
  pg_delete r _ := respond tt r
}.

(** A slot that holds no program. *)
Definition vacant (n : Z) : Status :=
  {| thread_num := n; name := ""; is_exist := false; is_running := false |}.

Definition slot (n : Z) (program : string) (running : bool) : Status :=
  {| thread_num := n; name := program; is_exist := true; is_running := running |}.

End Simulator.

(** ** Vocabulary of the properties *)

Import KHIRoLibLite.

(** The line separator as a [str]. *)
Definition NL : string := String nl "".

(** The three section types that [upload_program] asks for, and the
    [section_type] argument of each. *)
Inductive SectionType : Type := Program | Trans | Joints.

Definition keyword (t : SectionType) : string :=
  match t with
  | Program => "program"
  | Trans => "trans"
  | Joints => "joints"
  end.

(** [line] is an opening delimiter of the section [t] of [program_name]. *)
Definition is_opening (program_name : string) (t : SectionType) (line : string) : bool :=
  match t with
  | Program => startswith line (".PROGRAM " ++ program_name ++ "(")%string
  | Trans => startswith line ".TRANS"
  | Joints => startswith line ".JOINTS"
  end.

(** [line] is a closing delimiter. *)
Definition is_end (line : string) : bool := startswith line ".END".

Definition not_opening (program_name : string) (t : SectionType) (line : string) : Prop :=
  is_opening program_name t line = false.

Definition not_end (line : string) : Prop := is_end line = false.

(** The section as first-match-wins describes it: from the first opening
    delimiter to the first closing delimiter after it, the empty string
    when either is missing. *)
Fixpoint until_end (lines : list string) : option (list string) :=
  match lines with
  | [] => None
  | l :: rest =>
      if is_end l then Some [l]
      else match until_end rest with
           | Some b => Some (l :: b)
           | None => None
           end
  end.

Fixpoint first_match_section (program_name : string) (t : SectionType)
    (lines : list string) : string :=
  match lines with
  | [] => ""
  | l :: rest =>
      if is_opening program_name t l then
        match until_end rest with
        | Some b => join NL (l :: b)
        | None => ""
        end
      else first_match_section program_name t rest
  end.

(** The text of [s] before the first [sep], and the text after it. *)
Fixpoint before_first (sep : ascii) (s : string) : string :=
  match s with
  | EmptyString => EmptyString
  | String c s' => if Ascii.eqb c sep then EmptyString else String c (before_first sep s')
  end.

Fixpoint after_first (sep : ascii) (s : string) : string :=
  match s with
  | EmptyString => EmptyString
  | String c s' => if Ascii.eqb c sep then s' else after_first sep s'
  end.

(** The three checks of the statement validator on a trimmed line, as the
    specification words them: the line has a second token and [=] is in
    it; the text before the first [=] of that token is a parameter index,
    at least one character and every character a digit; every value of
    the comma-separated list after that [=] is, once trimmed, not empty
    and parses as a floating-point number.  [digit] says which characters
    count as digits. *)
Definition statement_ok (digit : ascii -> bool) (line : string) : bool :=
  match nth_error (split_ws line) 1 with
  | None => false
  | Some second =>
      contains "="%char second
      && (truthy (before_first "="%char second)
          && all_chars digit (before_first "="%char second))
      && forallb (fun value => truthy (strip value) && float_parses (strip value))
           (split ","%char (after_first "="%char second))
  end.

(** A line that the validator looks at. *)
Definition is_setcondw (line : string) : bool := startswith (strip line) "SETCONDW".

(** Every [SETCONDW] line of the text passes the three checks. *)
Definition statements_ok (digit : ascii -> bool) (text : string) : Prop :=
  Forall (fun line => is_setcondw line = true -> statement_ok digit (strip line) = true)
    (split nl text).

(** A text whose parameter index is the superscript digit two. *)
Definition superscript_two : ascii := ascii_of_nat 178.

Definition setcondw_superscript : string :=
  ("SETCONDW " ++ String superscript_two "=1")%string.

(** ** Vocabulary of the orchestration properties *)

(** The literal messages of [upload_program]. *)
Definition not_found_message (program_name : string) : string :=
  ("Program " ++ program_name ++ " did not found in the file.")%string.

Definition not_valid_message (program_name : string) : string :=
  ("Program " ++ program_name ++ " is not valid.")%string.

(** The status entry holds a program of this name, whatever the case. *)
Definition same_program (program_name : string) (element : Status) : bool :=
  is_exist element && (lower (name element) =? lower program_name)%string.

(** The mask of a thread: [1 << (thread_num - 1)]. *)
Definition thread_mask (element : Status) : Z := Z.shiftl 1 (thread_num element - 1).

Definition is_thread_command (ev : Call) : bool :=
  match ev with
  | Pc_abort _ | Pc_kill _ => true
  | _ => false
  end.

Definition is_upload (ev : Call) : bool :=
  match ev with
  | Upload_program _ => true
  | _ => false
  end.

(** The calls of the conflict resolution, and the calls after it. *)
Definition is_conflict_call (ev : Call) : bool :=
  match ev with
  | Get_pc_status _ | Get_rcp_status | Pc_abort _ | Pc_kill _ | Rcp_hold | Kill_rcp => true
  | _ => false
  end.

Definition is_section_call (ev : Call) : bool :=
  match ev with
  | Upload_program _ | Rcp_prime _ => true
  | _ => false
  end.

(** The commands that stop the first thread that holds the program, and
    those that stop the continuous-path program. *)
Definition thread_plan (program_name : string) (pg_status_list : list Status) : list Call :=
  match find (same_program program_name) pg_status_list with
  | Some element =>
      (if is_running element then [Pc_abort (thread_mask element)] else [])
      ++ [Pc_kill (thread_mask element)]
  | None => []
  end.

Definition rcp_plan (running : bool) : list Call :=
  (if running then [Rcp_hold] else []) ++ [Kill_rcp].

(** The conflict resolution after the two status queries: the plan for
    the first thread that holds the program, then the plan for the
    continuous-path program. *)
Definition conflict_plan (program_name : string) (pg_status_list : list Status)
    (rcp_status : Status) : list Call :=
  thread_plan program_name pg_status_list
  ++ (if same_program program_name rcp_status
      then rcp_plan (is_running rcp_status) else []).

Section Plans.

Context {C : Type} `{TelnetClient C}.

(** A command on the client, its value forgotten. *)
Definition perform (c : C) (ev : Call) : outcome unit * C :=
  let forget {A : Type} (r : outcome A * C) : outcome unit * C :=
    match r with
    | (Ok _, c') => (Ok tt, c')
    | (Raise msg, c') => (Raise msg, c')
    end in
  match ev with
  | Get_pc_status mask => forget (get_pc_status c mask)
  | Get_rcp_status => forget (get_rcp_status c)
  | Pc_abort mask => pc_abort c mask
  | Pc_kill mask => pc_kill c mask
  | Rcp_hold => rcp_hold c
  | Kill_rcp => kill_rcp c
  | Upload_program program_bytes => khi_telnet_lib.upload_program c program_bytes
  | Rcp_prime program_name => rcp_prime c program_name
  | Pg_delete pg_name => pg_delete c pg_name
  end.

(** The commands of a plan issued in order, up to and including the first
    one that raises: the commands issued, the message of the exception if
    one was raised, and the client afterwards. *)
Fixpoint run (plan : list Call) (c : C) : list Call * option string * C :=
  match plan with
  | [] => ([], None, c)
  | ev :: rest =>
      match perform c ev with
      | (Ok _, c') =>
          let '(done, failure, c'') := run rest c' in (ev :: done, failure, c'')
      | (Raise msg, c') => ([ev], Some msg, c')
      end
  end.

(** The statement that issues the commands of a plan in order. *)
Fixpoint issue (plan : list Call) : M C unit :=
  match plan with
  | [] => ret tt
  | ev :: rest => call ev (fun c => perform c ev) ;; issue rest
  end.

(** How a statement ends when a plan was run with this failure. *)
Definition flow_of (failure : option string) : flow unit :=
  match failure with
  | None => Next tt
  | Some msg => Except msg
  end.

(** The calls that a statement makes satisfy [P]. *)
Definition traces {A : Type} (P : Call -> bool) (m : M C A) : Prop :=
  forall f, exists t, issued (snd (m f)) = issued f ++ t /\ forallb P t = true.

(** The statement leaves [result] as it is and does not [return]. *)
Definition inert {A : Type} (m : M C A) : Prop :=
  forall f, result (snd (m f)) = result f /\ fst (m f) <> Return.

End Plans.

(** ** Scenarios *)

Module Scenario.

Import Simulator.

(** A program [TEST1] with trans points. *)
Definition test1_with_trans : string :=
  join NL [".PROGRAM TEST1()"; "  SETCONDW 1=1.0"; ".END"; ".TRANS"; "p1 0 0 0"; ".END"].

(** A text without program [TEST1]. *)
Definition other_program : string :=
  join NL [".PROGRAM OTHER()"; "  HOME"; ".END"].

(** A program [TEST1] with a statement that is not valid. *)
Definition test1_not_valid : string :=
  join NL [".PROGRAM TEST1()"; "  SETCONDW 1=abc"; ".END"].

(** A robot on which no program is loaded. *)
Definition idle (credit : option nat) : Robot :=
  {| pc := [vacant 1; vacant 2; vacant 3]; rcp := vacant 0; credit := credit |}.

(** A robot whose thread 2 runs [TEST1]. *)
Definition thread2_running (credit : option nat) : Robot :=
  {| pc := [vacant 1; slot 2 "TEST1" true; vacant 3]; rcp := vacant 0; credit := credit |}.

(** A robot whose continuous-path program is [A], running. *)
Definition rcp_running_A (credit : option nat) : Robot :=
  {| pc := []; rcp := slot 0 "A" true; credit := credit |}.

End Scenario.

(** The first status entry that holds the program, if there is one, has
    a thread number of at least 1, so that its mask can be computed. *)
Definition first_thread_valid (program_name : string) (pg_status_list : list Status)
    : bool :=
  match find (same_program program_name) pg_status_list with
  | Some element => (1 <=? thread_num element)%Z
  | None => true
  end.

(** ** Further methods and vocabulary *)

(** [UploadResult.to_dict]: the keys and values of the dictionary, in the
    order of insertion. *)
Definition to_dict (self : UploadResult) : list (string * bool) :=
  [("program_uploaded", program_uploaded self);
   ("trans_points_uploaded", trans_points_uploaded self);
   ("trans_points_exist", trans_points_exist self);
   ("joints_points_uploaded", joints_points_uploaded self);
   ("joints_points_exist", joints_points_exist self);
   ("program_loaded", program_loaded self);
   ("all_successful", all_successful self)].

(** The push of a section that was found. *)
Definition optional_push (section : outcome string) : list Call :=
  match section with
  | Ok s => if truthy s then [Upload_program (utf8 s)] else []
  | Raise _ => []
  end.

(** The calls of the sections of [upload_program]: none when the program
    section is missing or not valid, and otherwise the push of the program,
    of the trans points and of the joints points that were found, and the
    [rcp_prime] that was asked for. *)
Definition section_plan (program_name program_text : string) (open_program : bool)
    : list Call :=
  match find_section program_text program_name "program" with
  | Ok pg_string =>
      if truthy pg_string then
        match is_pg_valid pg_string with
        | Ok true =>
            Upload_program (utf8 pg_string)
            :: optional_push (find_section program_text program_name "trans")
            ++ optional_push (find_section program_text program_name "joints")
            ++ (if open_program then [Rcp_prime program_name] else [])
        | _ => []
        end
      else []
  | Raise _ => []
  end.

(** How the sections end when their plan was run with this failure. *)
Definition sections_flow (plan : list Call) (failure : option string) : flow unit :=
  match failure with
  | Some msg => Except msg
  | None => match plan with [] => Return | _ :: _ => Next tt end
  end.

(** Whether the text holds the section [t] of the program. *)
Definition section_found (program_name program_text : string) (t : SectionType) : bool :=
  match find_section program_text program_name (keyword t) with
  | Ok s => truthy s
  | Raise _ => false
  end.

(** A call that pushes no empty payload and deletes nothing. *)
Definition is_harmless (ev : Call) : bool :=
  match ev with
  | Upload_program [] => false
  | Pg_delete _ => false
  | _ => true
  end.

Section OtherMethods.

Context {C : Type} `{TelnetClient C}.

(** [stop_and_kill_pc]: how the method ends, and the frame at that
    point. *)
Definition stop_and_kill_pc (self : C) (thread_num : Z) : flow unit * frame C :=
  ((mask <- lift (lshift 1 (thread_num - 1)) ;;
    call (Pc_abort mask) (fun c => pc_abort c mask)) ;;
   (mask <- lift (lshift 1 (thread_num - 1)) ;;
    call (Pc_kill mask) (fun c => pc_kill c mask)))
    (enter self).

End OtherMethods.

(** ** Strings and lines *)

Lemma split_not_nil (sep : ascii) (s : string) : split sep s <> [].
Proof.
  induction s as [|c s IH]; simpl; [discriminate|].
  destruct (Ascii.eqb c sep); [discriminate|].
  destruct (split sep s); discriminate.
Qed.

Lemma split_free (sep : ascii) (s : string) :
  contains sep s = false -> split sep s = [s].
Proof.
  induction s as [|c s IH]; simpl; [reflexivity|].
  intros Hc. apply orb_false_iff in Hc as [Hc Hs].
  rewrite Hc, (IH Hs). reflexivity.
Qed.

Lemma split_app (sep : ascii) (s rest : string) :
  contains sep s = false ->
  split sep (s ++ String sep rest)%string = s :: split sep rest.
Proof.
  induction s as [|c s IH]; simpl; intros Hc.
  - rewrite Ascii.eqb_refl. reflexivity.
  - apply orb_false_iff in Hc as [Hc Hs].
    rewrite Hc, (IH Hs). reflexivity.
Qed.

(** Joining lines and splitting the text again gives the lines back. *)
Lemma split_join (sep : ascii) (ls : list string) :
  ls <> [] ->
  Forall (fun l => contains sep l = false) ls ->
  split sep (join (String sep "") ls) = ls.
Proof.
  induction ls as [|l ls IH]; [congruence|].
  intros _ Hfree. inversion Hfree as [|? ? Hl Hls]; subst.
  destruct ls as [|l' ls].
  - simpl. apply split_free, Hl.
  - change (join (String sep "") (l :: l' :: ls))
      with (l ++ String sep (join (String sep "") (l' :: ls)))%string.
    rewrite split_app by exact Hl.
    rewrite IH; [reflexivity|discriminate|exact Hls].
Qed.

(** No line of a text holds the separator. *)
Lemma split_lines_free (sep : ascii) (s : string) :
  Forall (fun l => contains sep l = false) (split sep s).
Proof.
  induction s as [|c s IH]; simpl.
  - constructor; [reflexivity|constructor].
  - destruct (Ascii.eqb c sep) eqn:Hc.
    + constructor; [reflexivity|exact IH].
    + destruct (split sep s) as [|h t] eqn:Hs.
      * constructor; [simpl; rewrite Hc; reflexivity|constructor].
      * inversion IH; subst. constructor; [simpl; rewrite Hc; assumption|assumption].
Qed.

Lemma prefix_two (a b : ascii) (p line : string) :
  String.prefix (String a (String b p)) line = true ->
  exists rest, line = String a (String b rest).
Proof.
  destruct line as [|a' [|b' rest]]; simpl; try discriminate.
  - destruct (ascii_dec a a'); discriminate.
  - destruct (ascii_dec a a'); [|discriminate].
    destruct (ascii_dec b b'); [|discriminate].
    subst. intros _. eexists. reflexivity.
Qed.

(** A line cannot open a section and close one. *)
Lemma opening_not_end (program_name : string) (t : SectionType) (line : string) :
  is_opening program_name t line = true -> is_end line = false.
Proof.
  unfold is_end, startswith. intros Ho.
  destruct (String.prefix ".END" line) eqn:He; [|reflexivity].
  apply prefix_two in He as [r1 E1].
  destruct t; unfold is_opening, startswith in Ho;
    apply prefix_two in Ho as [r2 E2]; congruence.
Qed.

(** ** The section extractor *)

(** One iteration of the loop, for a section type that the method knows. *)
Lemma find_section_loop_cons (program_name : string) (t : SectionType)
    (line : string) (rest : list string) (i : nat) (st : option nat) :
  find_section_loop program_name (keyword t) (line :: rest) i st =
  let st' := if is_opening program_name t line then Some i else st in
  match st' with
  | Some _ =>
      if is_end line then Ok (st', Some i)
      else find_section_loop program_name (keyword t) rest (S i) st'
  | None => find_section_loop program_name (keyword t) rest (S i) st'
  end.
Proof. destruct t; reflexivity. Qed.

(** Lines before any opening delimiter leave the scan where it was. *)
Lemma find_section_loop_before (program_name : string) (t : SectionType)
    (before rest : list string) (i : nat) :
  Forall (not_opening program_name t) before ->
  find_section_loop program_name (keyword t) (before ++ rest) i None =
  find_section_loop program_name (keyword t) rest (i + List.length before) None.
Proof.
  revert i. induction before as [|l before IH]; intros i Hb; simpl List.length.
  - rewrite Nat.add_0_r. reflexivity.
  - inversion Hb as [|? ? Hl Hb']; subst.
    rewrite <- app_comm_cons, find_section_loop_cons, Hl. cbv zeta.
    rewrite IH by exact Hb'. f_equal. lia.
Qed.

(** Lines without closing delimiter do not end the scan. *)
Lemma find_section_loop_open (program_name : string) (t : SectionType)
    (mid rest : list string) (i : nat) (st : option nat) :
  Forall not_end mid ->
  exists st',
    find_section_loop program_name (keyword t) (mid ++ rest) i st =
    find_section_loop program_name (keyword t) rest (i + List.length mid) st'.
Proof.
  revert i st. induction mid as [|l mid IH]; intros i st Hm; simpl List.length.
  - exists st. rewrite Nat.add_0_r. reflexivity.
  - inversion Hm as [|? ? Hl Hm']; subst.
    rewrite <- app_comm_cons, find_section_loop_cons, Hl. cbv zeta.
    destruct (IH (S i) (if is_opening program_name t l then Some i else st) Hm')
      as [st' E].
    exists st'. replace (i + S (List.length mid)) with (S i + List.length mid) by lia.
    rewrite <- E. destruct (if is_opening program_name t l then Some i else st); reflexivity.
Qed.

(** The lines of a body keep the opening delimiter that was found. *)
Lemma find_section_loop_body (program_name : string) (t : SectionType)
    (body rest : list string) (i s : nat) :
  Forall (fun l => not_opening program_name t l /\ not_end l) body ->
  find_section_loop program_name (keyword t) (body ++ rest) i (Some s) =
  find_section_loop program_name (keyword t) rest (i + List.length body) (Some s).
Proof.
  revert i. induction body as [|l body IH]; intros i Hb; simpl List.length.
  - rewrite Nat.add_0_r. reflexivity.
  - inversion Hb as [|? ? [Hl1 Hl2] Hb']; subst.
    rewrite <- app_comm_cons, find_section_loop_cons, Hl1, Hl2. cbv zeta.
    rewrite IH by exact Hb'. f_equal. lia.
Qed.

(** Without closing delimiter the scan runs to the end of the text. *)
Lemma find_section_loop_unclosed (program_name : string) (t : SectionType)
    (lines : list string) (i : nat) (st : option nat) :
  Forall not_end lines ->
  exists st', find_section_loop program_name (keyword t) lines i st = Ok (st', None).
Proof.
  revert i st. induction lines as [|l lines IH]; intros i st Hl.
  - exists st. reflexivity.
  - inversion Hl as [|? ? Hl1 Hl']; subst.
    rewrite find_section_loop_cons, Hl1. cbv zeta.
    destruct (IH (S i) (if is_opening program_name t l then Some i else st) Hl')
      as [st' E].
    exists st'. rewrite <- E.
    destruct (if is_opening program_name t l then Some i else st); reflexivity.
Qed.

(** The scan of a text that holds a block: lines before any opening
    delimiter, lines without closing delimiter, then an opening delimiter,
    a body and a closing delimiter. *)
Lemma find_section_loop_block (program_name : string) (t : SectionType)
    (before mid body post : list string) (op en : string) :
  Forall (not_opening program_name t) before ->
  Forall not_end mid ->
  is_opening program_name t op = true ->
  Forall (fun l => not_opening program_name t l /\ not_end l) body ->
  is_end en = true ->
  find_section_loop program_name (keyword t)
    (before ++ mid ++ op :: body ++ en :: post) 0 None =
  Ok (Some (List.length before + List.length mid),
      Some (List.length before + List.length mid + 1 + List.length body)).
Proof.
  intros Hb Hm Ho Hbody He.
  rewrite find_section_loop_before by exact Hb.
  destruct (find_section_loop_open program_name t mid (op :: body ++ en :: post)
              (0 + List.length before) None Hm) as [st' E].
  rewrite E, find_section_loop_cons, Ho. cbv zeta.
  rewrite (opening_not_end _ _ _ Ho).
  rewrite find_section_loop_body by exact Hbody.
  rewrite find_section_loop_cons, He.
  assert (Hne : is_opening program_name t en = false).
  { destruct (is_opening program_name t en) eqn:X; [|reflexivity].
    apply opening_not_end in X. congruence. }
  rewrite Hne. cbv zeta. cbv iota. f_equal. f_equal; f_equal; lia.
Qed.

Lemma slice_block {A : Type} (pre block post : list A) :
  slice (pre ++ block ++ post) (List.length pre)
        (List.length pre + List.length block) = block.
Proof.
  unfold slice.
  rewrite skipn_app, skipn_all, Nat.sub_diag. simpl.
  replace (List.length pre + List.length block - List.length pre)
    with (List.length block) by lia.
  rewrite firstn_app, firstn_all, Nat.sub_diag. simpl. apply app_nil_r.
Qed.

(** [find_section] on the lines of a text that holds a block. *)
Lemma find_section_block (content program_name : string) (t : SectionType)
    (before mid body post : list string) (op en : string) :
  split nl content = before ++ mid ++ op :: body ++ en :: post ->
  Forall (not_opening program_name t) before ->
  Forall not_end mid ->
  is_opening program_name t op = true ->
  Forall (fun l => not_opening program_name t l /\ not_end l) body ->
  is_end en = true ->
  find_section content program_name (keyword t) = Ok (join NL (op :: body ++ [en])).
Proof.
  intros Hl Hb Hm Ho Hbody He. unfold find_section. rewrite Hl.
  rewrite find_section_loop_block by assumption.
  do 2 f_equal.
  replace (before ++ mid ++ op :: body ++ en :: post)
    with ((before ++ mid) ++ (op :: body ++ [en]) ++ post)
    by (rewrite <- !app_assoc; simpl; rewrite <- app_assoc; reflexivity).
  rewrite <- (slice_block (before ++ mid) (op :: body ++ [en]) post) at 2.
  f_equal.
  - apply eq_sym, length_app.
  - rewrite length_app. simpl. rewrite length_app. simpl. lia.
Qed.

(** C7.  [find_section] returns the empty string, and does not raise, for
    the empty text, for a text without opening delimiter, and for a text
    whose first opening delimiter is followed by no line that starts with
    [.END]; this for each of the three section types. *)
Theorem find_section_not_found (program_name : string) (t : SectionType) :
  find_section "" program_name (keyword t) = Ok ""
  /\ (forall content,
        Forall (not_opening program_name t) (split nl content) ->
        find_section content program_name (keyword t) = Ok "")
  /\ (forall content before op rest,
        split nl content = before ++ op :: rest ->
        Forall (not_opening program_name t) before ->
        is_opening program_name t op = true ->
        Forall not_end rest ->
        find_section content program_name (keyword t) = Ok "").
Proof.
  assert (Hgen : forall content before rest,
             split nl content = before ++ rest ->
             Forall (not_opening program_name t) before ->
             Forall not_end rest ->
             find_section content program_name (keyword t) = Ok "").
  { intros content before rest Hl Hb Hr. unfold find_section. rewrite Hl.
    rewrite find_section_loop_before by exact Hb.
    destruct (find_section_loop_unclosed program_name t rest
                (0 + List.length before) None Hr) as [st' E].
    rewrite E. destruct st'; reflexivity. }
  split; [destruct t; reflexivity|]. split.
  - intros content Hno.
    apply (Hgen content (split nl content) []);
      [rewrite app_nil_r; reflexivity|exact Hno|constructor].
  - intros content before op rest Hl Hb Ho Hr.
    apply (Hgen content before (op :: rest) Hl Hb).
    constructor; [exact (opening_not_end _ _ _ Ho)|exact Hr].
Qed.

Lemma find_section_not_found_witness :
  find_section (join NL ["REM"; ".TRANS"; "p1 0 0 0"]) "PG9" "trans" = Ok "".
Proof.
  apply (proj2 (proj2 (find_section_not_found "PG9" Trans))
           (join NL ["REM"; ".TRANS"; "p1 0 0 0"]) ["REM"] ".TRANS" ["p1 0 0 0"]).
  - reflexivity.
  - repeat constructor.
  - reflexivity.
  - repeat constructor.
Defined.

(** C2, as the code has it.  The section that [find_section] returns
    starts at the last opening delimiter that stands before the first
    [.END] line after the first opening delimiter, and ends at that [.END]
    line: in a text whose lines are [before] (no opening delimiter), [mid]
    (no [.END] line; the earlier opening delimiters are here), the opening
    delimiter [op], [body] (neither), the [.END] line [en] and [post]
    (anything; the later opening delimiters are here), the section is
    [op], [body] and [en]. *)
Theorem find_section_last_opening (content program_name : string) (t : SectionType)
    (before mid body post : list string) (op en : string) :
  split nl content = before ++ mid ++ op :: body ++ en :: post ->
  Forall (not_opening program_name t) before ->
  Forall not_end mid ->
  is_opening program_name t op = true ->
  Forall (fun l => not_opening program_name t l /\ not_end l) body ->
  is_end en = true ->
  find_section content program_name (keyword t) = Ok (join NL (op :: body ++ [en])).
Proof. apply find_section_block. Qed.

Lemma find_section_last_opening_witness :
  find_section
    (join NL ["REM"; ".TRANS A"; "x"; ".TRANS B"; "y"; ".END"; ".TRANS C"; ".END"])
    "PG9" "trans"
  = Ok (join NL [".TRANS B"; "y"; ".END"]).
Proof.
  apply (find_section_last_opening
           (join NL ["REM"; ".TRANS A"; "x"; ".TRANS B"; "y"; ".END"; ".TRANS C"; ".END"])
           "PG9" Trans ["REM"] [".TRANS A"; "x"] ["y"] [".TRANS C"; ".END"]
           ".TRANS B" ".END").
  - reflexivity.
  - repeat constructor.
  - repeat constructor.
  - reflexivity.
  - repeat constructor.
  - reflexivity.
Defined.

(** C2, as stated, fails: of two opening delimiters before the first
    [.END] line the second is honoured, so the section does not start at
    the first. *)
Lemma find_section_first_opening_overridden :
  let content := join NL [".TRANS A"; "x"; ".TRANS B"; "y"; ".END"] in
  is_opening "PG9" Trans ".TRANS A" = true
  /\ is_opening "PG9" Trans ".TRANS B" = true
  /\ first_match_section "PG9" Trans (split nl content) = content
  /\ find_section content "PG9" "trans" = Ok (join NL [".TRANS B"; "y"; ".END"])
  /\ find_section content "PG9" "trans"
     <> Ok (first_match_section "PG9" Trans (split nl content)).
Proof.
  cbv zeta. repeat split; try reflexivity. vm_compute. discriminate.
Qed.

(** C8.  When the text holds a block [.PROGRAM name(] ... [.END] (an
    opening delimiter [op], lines [body] that neither open nor close, a
    closing delimiter [en]) and this is the first block of the text that
    is closed, then [find_section] returns that block, its lines joined by
    newlines, and applied to the block it returns the block again. *)
Theorem find_section_program_block (content program_name : string)
    (before mid body post : list string) (op en : string) :
  split nl content = before ++ mid ++ op :: body ++ en :: post ->
  Forall (not_opening program_name Program) before ->
  Forall not_end mid ->
  is_opening program_name Program op = true ->
  Forall (fun l => not_opening program_name Program l /\ not_end l) body ->
  is_end en = true ->
  let block := join NL (op :: body ++ [en]) in
  find_section content program_name "program" = Ok block
  /\ find_section block program_name "program" = Ok block.
Proof.
  intros Hl Hb Hm Ho Hbody He block. split.
  - exact (find_section_block content program_name Program
             before mid body post op en Hl Hb Hm Ho Hbody He).
  - apply (find_section_block block program_name Program [] [] body [] op en);
      try assumption; try constructor.
    unfold block, NL. apply split_join; [discriminate|].
    pose proof (split_lines_free nl content) as Hfree. rewrite Hl in Hfree.
    apply Forall_app in Hfree as [_ Hfree].
    apply Forall_app in Hfree as [_ Hfree].
    inversion Hfree as [|? ? Hop Hrest]; subst.
    apply Forall_app in Hrest as [Hbd Hrest].
    inversion Hrest as [|? ? Hen _]; subst.
    constructor; [exact Hop|].
    apply Forall_app. split; [exact Hbd|]. constructor; [exact Hen|constructor].
Qed.

Lemma find_section_program_block_witness :
  let block := join NL [".PROGRAM PG9()"; "  HOME"; ".END"] in
  find_section (join NL ["REM"; ".PROGRAM PG9()"; "  HOME"; ".END"; ".TRANS"; ".END"])
    "PG9" "program" = Ok block
  /\ find_section block "PG9" "program" = Ok block.
Proof.
  apply (find_section_program_block
           (join NL ["REM"; ".PROGRAM PG9()"; "  HOME"; ".END"; ".TRANS"; ".END"])
           "PG9" ["REM"] [] ["  HOME"] [".TRANS"; ".END"] ".PROGRAM PG9()" ".END").
  - reflexivity.
  - repeat constructor.
  - constructor.
  - reflexivity.
  - repeat constructor.
  - reflexivity.
Defined.

(** ** The statement validator *)

Lemma split1_contains (sep : ascii) (s : string) :
  contains sep s = true ->
  split1 sep s = [before_first sep s; after_first sep s].
Proof.
  induction s as [|c s IH]; simpl; [discriminate|].
  destruct (Ascii.eqb c sep); simpl; [reflexivity|].
  intros Hc. rewrite (IH Hc). reflexivity.
Qed.

Lemma check_values_forallb (values : list string) :
  check_values values =
  forallb (fun value => truthy (strip value) && float_parses (strip value)) values.
Proof.
  induction values as [|v values IH]; simpl; [reflexivity|].
  destruct (truthy (strip v)); simpl; [|reflexivity].
  destruct (float_parses (strip v)); simpl; [exact IH|reflexivity].
Qed.

Lemma nth_error_second {A : Type} (l : list A) (d : A) :
  nth_error l 1 = if (List.length l <? 2)%nat then None else Some (nth 1 l d).
Proof. destruct l as [|a [|b l]]; reflexivity. Qed.

(** One iteration of the loop of [is_pg_valid]. *)
Lemma is_pg_valid_loop_cons (line : string) (rest : list string) :
  is_pg_valid_loop (line :: rest) =
  if is_setcondw line then
    if statement_ok isdigit_char (strip line) then is_pg_valid_loop rest else Ok false
  else is_pg_valid_loop rest.
Proof.
  unfold is_setcondw, statement_ok. cbn [is_pg_valid_loop].
  assert (Ht : truthy (strip line) && startswith (strip line) "SETCONDW"
               = startswith (strip line) "SETCONDW").
  { destruct (strip line); reflexivity. }
  rewrite Ht. destruct (startswith (strip line) "SETCONDW"); [|reflexivity].
  rewrite (nth_error_second (split_ws (strip line)) "").
  destruct (List.length (split_ws (strip line)) <? 2)%nat; simpl; [reflexivity|].
  destruct (contains "="%char (nth 1 (split_ws (strip line)) "")) eqn:Hc; simpl;
    [|reflexivity].
  rewrite (split1_contains _ _ Hc). unfold isdigit.
  destruct (truthy (before_first "=" (nth 1 (split_ws (strip line)) ""))
            && all_chars isdigit_char (before_first "=" (nth 1 (split_ws (strip line)) "")));
    simpl; [|reflexivity].
  rewrite check_values_forallb.
  destruct (forallb _ _); reflexivity.
Qed.

(** The loop returns whether every [SETCONDW] line passes the checks. *)
Lemma is_pg_valid_loop_forallb (lines : list string) :
  is_pg_valid_loop lines =
  Ok (forallb (fun line => implb (is_setcondw line) (statement_ok isdigit_char (strip line)))
        lines).
Proof.
  induction lines as [|line lines IH]; [reflexivity|].
  rewrite is_pg_valid_loop_cons. cbn [forallb].
  destruct (is_setcondw line); simpl; [|exact IH].
  destruct (statement_ok isdigit_char (strip line)); simpl; [exact IH|reflexivity].
Qed.

(** C5, as the code has it.  [is_pg_valid] never raises, and it returns
    [True] exactly when every line that, once trimmed, starts with
    [SETCONDW] passes the three checks, where the digits of the parameter
    index are the characters for which [str.isdigit] holds; so it returns
    [True] when no line starts with [SETCONDW]. *)
Theorem is_pg_valid_iff (text : string) :
  (exists b, is_pg_valid text = Ok b)
  /\ (is_pg_valid text = Ok true <-> statements_ok isdigit_char text)
  /\ (Forall (fun line => is_setcondw line = false) (split nl text) ->
      is_pg_valid text = Ok true).
Proof.
  unfold is_pg_valid, statements_ok. rewrite is_pg_valid_loop_forallb.
  split; [eexists; reflexivity|]. split.
  - split.
    + intros E. injection E as E. rewrite forallb_forall in E.
      apply Forall_forall. intros line Hin Hs.
      specialize (E line Hin). rewrite Hs in E. exact E.
    + intros Hall. f_equal. apply forallb_forall. intros line Hin.
      rewrite Forall_forall in Hall. specialize (Hall line Hin).
      destruct (is_setcondw line); [simpl; apply Hall; reflexivity|reflexivity].
  - intros Hno. f_equal. apply forallb_forall. intros line Hin.
    rewrite Forall_forall in Hno. rewrite (Hno line Hin). reflexivity.
Qed.

Lemma is_pg_valid_iff_witness :
  is_pg_valid (join NL ["  HOME"; "  SPEED 10"]) = Ok true.
Proof.
  apply (proj2 (proj2 (is_pg_valid_iff (join NL ["  HOME"; "  SPEED 10"])))).
  repeat constructor.
Defined.

(** C5, as stated, fails: a parameter index written with the superscript
    digit two is no sequence of decimal digits, and [is_pg_valid] accepts
    the line. *)
Lemma is_pg_valid_superscript_digit :
  is_pg_valid setcondw_superscript = Ok true
  /\ ~ statements_ok isdecimal_char setcondw_superscript.
Proof.
  split; [reflexivity|].
  unfold statements_ok. intros Hall.
  inversion Hall as [|? ? Hline _]; subst.
  specialize (Hline eq_refl). vm_compute in Hline. discriminate.
Qed.

(** ** Execution of statements *)

Section Statements.

Context {C : Type} `{TelnetClient C}.

Lemma traces_ret {A : Type} (P : Call -> bool) (a : A) : traces P (ret (C := C) a).
Proof. intros f. exists []. simpl. rewrite app_nil_r. auto. Qed.

Lemma traces_return {A : Type} (P : Call -> bool) : traces P (return_ (C := C) (A := A)).
Proof. intros f. exists []. simpl. rewrite app_nil_r. auto. Qed.

Lemma traces_lift {A : Type} (P : Call -> bool) (o : outcome A) : traces P (lift (C := C) o).
Proof. intros f. exists []. destruct o; simpl; rewrite app_nil_r; auto. Qed.

Lemma traces_assign (P : Call -> bool) (set : UploadResult -> UploadResult) :
  traces P (assign (C := C) set).
Proof. intros f. exists []. simpl. rewrite app_nil_r. auto. Qed.

Lemma traces_call {A : Type} (P : Call -> bool) (ev : Call) (op : C -> outcome A * C) :
  P ev = true -> traces P (call ev op).
Proof.
  intros HP f. exists [ev]. unfold call.
  destruct (op (client f)) as [[a|msg] c]; simpl; rewrite HP; auto.
Qed.

Lemma traces_bind {A B : Type} (P : Call -> bool) (m : M C A) (k : A -> M C B) :
  traces P m -> (forall a, traces P (k a)) -> traces P (bind m k).
Proof.
  intros Hm Hk f. unfold bind.
  destruct (Hm f) as [t [Et Pt]].
  destruct (m f) as [[a| |msg] f'] eqn:E; simpl in *.
  - destruct (Hk a f') as [t' [Et' Pt']].
    exists (t ++ t'). rewrite Et', Et, app_assoc, forallb_app, Pt, Pt'. auto.
  - exists t. auto.
  - exists t. auto.
Qed.

Lemma traces_for_each {A : Type} (P : Call -> bool) (l : list A)
    (body : A -> M C iteration) :
  (forall x, traces P (body x)) -> traces P (for_each l body).
Proof.
  intros Hb. induction l as [|x l IH]; simpl.
  - apply traces_ret.
  - apply traces_bind; [apply Hb|].
    intros [|]; [exact IH|apply traces_ret].
Qed.

Lemma inert_ret {A : Type} (a : A) : inert (ret (C := C) a).
Proof. intros f. simpl. split; [reflexivity|discriminate]. Qed.

Lemma inert_lift {A : Type} (o : outcome A) : inert (lift (C := C) o).
Proof. intros f. destruct o; simpl; split; try reflexivity; discriminate. Qed.

Lemma inert_call {A : Type} (ev : Call) (op : C -> outcome A * C) : inert (call ev op).
Proof.
  intros f. unfold call.
  destruct (op (client f)) as [[a|msg] c]; simpl; split; try reflexivity; discriminate.
Qed.

Lemma inert_bind {A B : Type} (m : M C A) (k : A -> M C B) :
  inert m -> (forall a, inert (k a)) -> inert (bind m k).
Proof.
  intros Hm Hk f. unfold bind.
  destruct (Hm f) as [Er Ef].
  destruct (m f) as [[a| |msg] f'] eqn:E; simpl in *.
  - destruct (Hk a f') as [Er' Ef']. rewrite Er', Er. auto.
  - congruence.
  - split; [exact Er|discriminate].
Qed.

Lemma inert_for_each {A : Type} (l : list A) (body : A -> M C iteration) :
  (forall x, inert (body x)) -> inert (for_each l body).
Proof.
  intros Hb. induction l as [|x l IH]; simpl.
  - apply inert_ret.
  - apply inert_bind; [apply Hb|].
    intros [|]; [exact IH|apply inert_ret].
Qed.

End Statements.

(** ** Plans of commands *)

Section PlanLemmas.

Context {C : Type} `{TelnetClient C}.

(** Issuing a plan is running it on the client of the frame. *)
Lemma issue_run (plan : list Call) (f : frame C) :
  issue plan f =
  let '(done, failure, c) := run plan (client f) in
  (flow_of failure, {| client := c; issued := issued f ++ done; result := result f |}).
Proof.
  revert f. induction plan as [|ev plan IH]; intros f.
  - simpl. rewrite app_nil_r. destruct f; reflexivity.
  - cbn [issue run]. unfold bind, call.
    destruct (perform (client f) ev) as [[[]|msg] c'] eqn:E.
    + rewrite IH. cbn [client issued result].
      destruct (run plan c') as [[done failure] c''].
      rewrite <- app_assoc. reflexivity.
    + reflexivity.
Qed.

(** The commands issued are a prefix of the plan. *)
Lemma run_prefix (plan : list Call) (c : C) :
  exists rest, plan = fst (fst (run plan c)) ++ rest.
Proof.
  revert c. induction plan as [|ev plan IH]; intros c.
  - exists []. reflexivity.
  - cbn [run]. destruct (perform c ev) as [[[]|msg] c'].
    + destruct (IH c') as [rest E].
      destruct (run plan c') as [[done failure] c'']. simpl in *.
      exists rest. congruence.
    + exists plan. reflexivity.
Qed.

(** The whole plan is issued when no command raises. *)
Lemma run_complete (plan : list Call) (c : C) :
  snd (fst (run plan c)) = None -> fst (fst (run plan c)) = plan.
Proof.
  revert c. induction plan as [|ev plan IH]; intros c.
  - reflexivity.
  - cbn [run]. destruct (perform c ev) as [[[]|msg] c'].
    + specialize (IH c').
      destruct (run plan c') as [[done failure] c'']. simpl in *.
      intros E. rewrite (IH E). reflexivity.
    + discriminate.
Qed.

(** The command at which a run stops is the last one issued. *)
Lemma run_failure (plan : list Call) (c : C) (msg : string) :
  snd (fst (run plan c)) = Some msg ->
  exists done ev, fst (fst (run plan c)) = done ++ [ev].
Proof.
  revert c. induction plan as [|ev plan IH]; intros c.
  - discriminate.
  - cbn [run]. destruct (perform c ev) as [[[]|msg'] c'].
    + specialize (IH c').
      destruct (run plan c') as [[done failure] c'']. simpl in *.
      intros E. destruct (IH E) as [d [ev' Ed]].
      exists (ev :: d), ev'. rewrite Ed. reflexivity.
    + intros _. exists [], ev. reflexivity.
Qed.

Lemma run_app (p q : list Call) (c : C) :
  run (p ++ q) c =
  let '(done, failure, c') := run p c in
  match failure with
  | None => let '(done', failure', c'') := run q c' in (done ++ done', failure', c'')
  | Some msg => (done, Some msg, c')
  end.
Proof.
  revert c. induction p as [|ev p IH]; intros c.
  - simpl. destruct (run q c) as [[d fl] c']. reflexivity.
  - cbn [app run]. destruct (perform c ev) as [[[]|msg] c'].
    + rewrite IH. destruct (run p c') as [[done [msg|]] c''].
      * reflexivity.
      * destruct (run q c'') as [[d' f'] c3]. reflexivity.
    + reflexivity.
Qed.

Lemma bind_assoc {A B D : Type} (m : M C A) (k : A -> M C B) (k' : B -> M C D)
    (f : frame C) :
  bind (bind m k) k' f = bind m (fun a => bind (k a) k') f.
Proof. unfold bind. destruct (m f) as [[a| |msg] f']; reflexivity. Qed.

Lemma issue_app (p q : list Call) (f : frame C) :
  issue (p ++ q) f = (issue p ;; issue q) f.
Proof.
  revert f. induction p as [|ev p IH]; intros f.
  - reflexivity.
  - cbn [app issue]. rewrite bind_assoc. unfold bind at 1 2.
    destruct (call ev (fun c => perform c ev) f) as [[[]| |msg] f']; try reflexivity.
    apply IH.
Qed.

End PlanLemmas.

(** ** The conflict resolution *)

Section Conflicts.

Context {C : Type} `{TelnetClient C}.

Lemma for_each_skip {A : Type} (before rest : list A) (body : A -> M C iteration)
    (f : frame C) :
  Forall (fun y => forall g, body y g = (Next Continue, g)) before ->
  for_each (before ++ rest) body f = for_each rest body f.
Proof.
  induction before as [|y before IH]; intros Hb; [reflexivity|].
  inversion Hb as [|? ? Hy Hb']; subst.
  cbn [app for_each]. unfold bind. rewrite Hy. apply IH, Hb'.
Qed.

Lemma find_split {A : Type} (p : A -> bool) (l : list A) (x : A) :
  find p l = Some x ->
  exists before after,
    l = before ++ x :: after /\ Forall (fun y => p y = false) before /\ p x = true.
Proof.
  induction l as [|y l IH]; simpl; [discriminate|].
  destruct (p y) eqn:Hy.
  - intros E. injection E as ->. exists [], l. auto.
  - intros E. destruct (IH E) as [before [after [El [Hb Hx]]]].
    exists (y :: before), after. subst. auto.
Qed.

Lemma find_none_all {A : Type} (p : A -> bool) (l : list A) :
  find p l = None -> Forall (fun y => p y = false) l.
Proof.
  induction l as [|y l IH]; simpl; [constructor|].
  destruct (p y) eqn:Hy; [discriminate|]. auto.
Qed.

Lemma lshift_mask (element : Status) :
  (1 <= thread_num element)%Z ->
  lshift 1 (thread_num element - 1) = Ok (thread_mask element).
Proof.
  intros Hn. unfold lshift, thread_mask.
  destruct (thread_num element - 1 <? 0)%Z eqn:E; [|reflexivity].
  apply Z.ltb_lt in E. lia.
Qed.

Lemma lshift_negative (element : Status) :
  (thread_num element < 1)%Z ->
  lshift 1 (thread_num element - 1) = Raise "negative shift count".
Proof.
  intros Hn. unfold lshift.
  destruct (thread_num element - 1 <? 0)%Z eqn:E; [reflexivity|].
  apply Z.ltb_ge in E. lia.
Qed.

(** The conflict resolution after the two status queries is the plan of
    its commands. *)
Lemma resolve_conflicts_issue (program_name : string) (f : frame C)
    (pg_status_list : list Status) (rcp_status : Status) (c1 c2 : C) :
  get_pc_status (client f) 31 = (Ok pg_status_list, c1) ->
  get_rcp_status c1 = (Ok rcp_status, c2) ->
  (forall element,
      find (same_program program_name) pg_status_list = Some element ->
      (1 <= thread_num element)%Z) ->
  resolve_conflicts program_name f =
  issue (conflict_plan program_name pg_status_list rcp_status)
    {| client := c2;
       issued := issued f ++ [Get_pc_status 31; Get_rcp_status];
       result := result f |}.
Proof.
  intros Hpc Hrcp Hnum.
  unfold resolve_conflicts, get_status_pc, conflict_plan.
  unfold bind at 1. unfold call at 1. rewrite Hpc.
  unfold bind at 1. unfold call at 1. cbn [client issued result]. rewrite Hrcp.
  cbn [client issued result]. rewrite <- app_assoc. cbn [app].
  set (f2 := {| client := c2;
                issued := issued f ++ [Get_pc_status 31; Get_rcp_status];
                result := result f |}).
  rewrite issue_app.
  set (body := fun element : Status => _).
  assert (Hskip : forall y, same_program program_name y = false ->
                            forall g, body y g = (Next Continue, g)).
  { intros y Hy g. unfold body, same_program in *.
    destruct (is_exist y); [|reflexivity].
    simpl in Hy. rewrite Hy. reflexivity. }
  assert (Hloop : forall g, for_each pg_status_list body g
                            = issue (thread_plan program_name pg_status_list) g).
  { intros g. unfold thread_plan.
    destruct (find (same_program program_name) pg_status_list) as [e|] eqn:Hfind.
    - specialize (Hnum e eq_refl).
      destruct (find_split _ _ _ Hfind) as [before [after [El [Hb He]]]].
      rewrite El, for_each_skip.
      2:{ eapply Forall_impl; [|exact Hb]. intros y Hy. apply Hskip, Hy. }
      cbn [for_each]. unfold body at 1. unfold same_program in He.
      apply andb_true_iff in He as [He1 He2]. rewrite He1, He2.
      rewrite (lshift_mask e Hnum).
      destruct (is_running e); cbn [app issue]; unfold bind, lift, call, ret;
        cbn [perform];
        repeat match goal with
        | |- context [pc_abort ?c ?m] => destruct (pc_abort c m) as [[[]|?] ?]
        | |- context [pc_kill ?c ?m] => destruct (pc_kill c m) as [[[]|?] ?]
        end; reflexivity.
    - rewrite <- (app_nil_r pg_status_list), for_each_skip; [reflexivity|].
      eapply Forall_impl; [|exact (find_none_all _ _ Hfind)].
      intros y Hy. apply Hskip, Hy. }
  unfold bind at 1 3. rewrite Hloop.
  destruct (issue (thread_plan program_name pg_status_list) f2) as [[[]| |msg] f3];
    try reflexivity.
  unfold same_program.
  destruct (is_exist rcp_status); [|reflexivity]. cbn [andb].
  destruct (lower (name rcp_status) =? lower program_name)%string; [|reflexivity].
  unfold rcp_plan.
  destruct (is_running rcp_status); cbn [app issue]; unfold bind, call, ret;
    cbn [perform];
    repeat match goal with
    | |- context [rcp_hold ?c] => destruct (rcp_hold c) as [[[]|?] ?]
    | |- context [kill_rcp ?c] => destruct (kill_rcp c) as [[[]|?] ?]
    end; reflexivity.
Qed.

Ltac stmt :=
  repeat first
    [ apply traces_ret | apply traces_return | apply traces_lift | apply traces_assign
    | apply traces_call; reflexivity
    | apply traces_for_each | apply traces_bind
    | apply inert_ret | apply inert_lift | apply inert_call
    | apply inert_for_each | apply inert_bind
    | match goal with
      | |- forall _, _ => intro
      | |- traces _ (if ?b then _ else _) => destruct b
      | |- inert (if ?b then _ else _) => destruct b
      | |- traces _ (match ?x with _ => _ end) => destruct x
      | |- inert (match ?x with _ => _ end) => destruct x
      end ].

Lemma resolve_conflicts_inert (program_name : string) :
  inert (resolve_conflicts (C := C) program_name).
Proof. unfold resolve_conflicts, get_status_pc. stmt. Qed.

Lemma resolve_conflicts_traces (program_name : string) :
  traces is_conflict_call (resolve_conflicts (C := C) program_name).
Proof. unfold resolve_conflicts, get_status_pc. stmt. Qed.

Lemma upload_sections_traces (program_name program_text : string) (open_program : bool) :
  traces is_section_call (upload_sections (C := C) program_name program_text open_program).
Proof. unfold upload_sections. stmt. Qed.

End Conflicts.

(** ** The upload orchestrator *)

(** Runs the sections by cases on what the extractor, the validator and
    the client return. *)
Ltac run_sections :=
  unfold upload_sections, bind, lift, call, assign, ret, return_;
  repeat (cbn [fst snd client issued result negb];
          match goal with
          | |- context [find_section ?a ?b ?c] => destruct (find_section a b c) eqn:?
          | |- context [truthy ?a] => destruct (truthy a) eqn:?
          | |- context [is_pg_valid ?a] => destruct (is_pg_valid a) as [[|]|] eqn:?
          | |- context [khi_telnet_lib.upload_program ?c ?b] =>
              destruct (khi_telnet_lib.upload_program c b) as [[[]|?] ?] eqn:?
          | |- context [rcp_prime ?c ?b] => destruct (rcp_prime c b) as [[[]|?] ?] eqn:?
          | |- context [if ?b then _ else _] => is_var b; destruct b
          end);
  cbn [fst snd client issued result negb].

Section Upload.

Context {C : Type} `{TelnetClient C}.

Lemma find_section_returns (content program_name : string) (t : SectionType) :
  exists s, find_section content program_name (keyword t) = Ok s.
Proof.
  unfold find_section.
  assert (Hl : forall lines i st, exists r,
             find_section_loop program_name (keyword t) lines i st = Ok r).
  { induction lines as [|l lines IH]; intros i st.
    - eexists. reflexivity.
    - rewrite find_section_loop_cons. cbv zeta.
      destruct (if is_opening program_name t l then Some i else st).
      + destruct (is_end l); [eexists; reflexivity|apply IH].
      + apply IH. }
  destruct (Hl (split nl content) 0 None) as [[[s|] [e|]] E]; rewrite E;
    eexists; reflexivity.
Qed.

Lemma is_pg_valid_returns (text : string) : exists b, is_pg_valid text = Ok b.
Proof.
  unfold is_pg_valid. rewrite is_pg_valid_loop_forallb. eexists. reflexivity.
Qed.

(** The body of the [try] statement, by the way the conflict resolution
    ends. *)
Lemma upload_program_try_split (program_name program_text : string)
    (open_program : bool) (f : frame C) :
  upload_program_try program_name program_text open_program f =
  match resolve_conflicts program_name f with
  | (Next _, f1) => upload_sections program_name program_text open_program f1
  | (Return, f1) => (Return, f1)
  | (Except msg, f1) => (Except msg, f1)
  end.
Proof. reflexivity. Qed.

(** From a fresh [result], the sections leave each uploaded flag equal to
    its exist flag. *)
Lemma upload_sections_flags (program_name program_text : string)
    (open_program : bool) (f : frame C) :
  result f = UploadResult_new ->
  let r := result (snd (upload_sections program_name program_text open_program f)) in
  trans_points_uploaded r = trans_points_exist r
  /\ joints_points_uploaded r = joints_points_exist r.
Proof.
  intros Hr. run_sections; cbn; rewrite ?Hr; cbn; auto.
Qed.

(** When the [Program] section is missing, the sections end by [return]
    with the not-found message and make no call. *)
Lemma upload_sections_not_found (program_name program_text : string)
    (open_program : bool) (f : frame C) :
  find_section program_text program_name "program" = Ok "" ->
  upload_sections program_name program_text open_program f =
  (Return,
   {| client := client f; issued := issued f;
      result := set_error_message (Some (not_found_message program_name)) (result f) |}).
Proof. intros Hs. unfold upload_sections, bind, lift. rewrite Hs. reflexivity. Qed.

Lemma forallb_impl {A : Type} (P Q : A -> bool) (l : list A) :
  (forall x, P x = true -> Q x = true) -> forallb P l = true -> forallb Q l = true.
Proof.
  intros HPQ. induction l as [|x l IH]; simpl; [reflexivity|].
  intros E. apply andb_true_iff in E as [E1 E2].
  rewrite (HPQ x E1), (IH E2). reflexivity.
Qed.

(** In every result that [upload_program] returns each uploaded flag is
    equal to its exist flag. *)
Lemma upload_program_flags (self : C) (program_name program_text : string)
    (open_program : bool) :
  let r := result (upload_program self program_name program_text open_program) in
  trans_points_uploaded r = trans_points_exist r
  /\ joints_points_uploaded r = joints_points_exist r.
Proof.
  cbv zeta. unfold upload_program. rewrite upload_program_try_split.
  destruct (resolve_conflicts_inert program_name (enter self)) as [Hr Hf].
  destruct (resolve_conflicts program_name (enter self)) as [[[]| |msg] f1];
    cbn [fst snd] in Hr, Hf.
  - pose proof (upload_sections_flags program_name program_text open_program f1 Hr)
      as [Ht Hj]. cbv zeta in Ht, Hj.
    destruct (upload_sections program_name program_text open_program f1)
      as [[[]| |msg] f2]; cbn [snd result] in *; auto.
  - congruence.
  - cbn [result]. rewrite Hr. cbn. auto.
Qed.

(** C9.  In the [UploadResult] that [upload_program] returns, whatever the
    client does and wherever it raises, [trans_points_uploaded] implies
    [trans_points_exist] and [joints_points_uploaded] implies
    [joints_points_exist]. *)
Theorem upload_program_uploaded_exist (self : C) (program_name program_text : string)
    (open_program : bool) :
  let r := result (upload_program self program_name program_text open_program) in
  (trans_points_uploaded r = true -> trans_points_exist r = true)
  /\ (joints_points_uploaded r = true -> joints_points_exist r = true).
Proof.
  cbv zeta.
  destruct (upload_program_flags self program_name program_text open_program)
    as [Ht Hj]. cbv zeta in Ht, Hj.
  rewrite <- Ht, <- Hj. auto.
Qed.

(** C3, as the code has it.  When the [Program] section is missing,
    [upload_program] returns a result in which [program_uploaded] and the
    four trans and joints flags are false, and it pushes no bytes; the
    [error_message] is the not-found message when the conflict resolution
    ended normally, and the message of the exception that ended it
    otherwise. *)
Theorem upload_program_not_found (self : C) (program_name program_text : string)
    (open_program : bool) :
  find_section program_text program_name "program" = Ok "" ->
  let f := upload_program self program_name program_text open_program in
  program_uploaded (result f) = false
  /\ trans_points_uploaded (result f) = false
  /\ trans_points_exist (result f) = false
  /\ joints_points_uploaded (result f) = false
  /\ joints_points_exist (result f) = false
  /\ forallb (fun ev => negb (is_upload ev)) (issued f) = true
  /\ match fst (resolve_conflicts program_name (enter self)) with
     | Next _ => error_message (result f) = Some (not_found_message program_name)
     | Return => False
     | Except msg => error_message (result f) = Some msg
     end.
Proof.
  intros Hs. cbv zeta. unfold upload_program. rewrite upload_program_try_split.
  destruct (resolve_conflicts_inert program_name (enter self)) as [Hr Hf].
  destruct (resolve_conflicts_traces program_name (enter self)) as [t [Ht Pt]].
  assert (Hup : forallb (fun ev => negb (is_upload ev)) t = true).
  { apply (forallb_impl is_conflict_call); [|exact Pt]. intros []; simpl; congruence. }
  destruct (resolve_conflicts program_name (enter self)) as [[[]| |msg] f1];
    cbn [fst snd] in *.
  - rewrite upload_sections_not_found by exact Hs.
    cbn [result issued]. rewrite Hr, Ht. cbn. repeat split; auto.
  - congruence.
  - cbn [result issued]. rewrite Hr, Ht. cbn. repeat split; auto.
Qed.

End Upload.

Section Traces.

Context {C : Type} `{TelnetClient C}.

Lemma run_forallb (P : Call -> bool) (plan : list Call) (c : C) :
  forallb P plan = true -> forallb P (fst (fst (run plan c))) = true.
Proof.
  intros HP. destruct (run_prefix plan c) as [rest E].
  rewrite E, forallb_app in HP. apply andb_true_iff in HP as [HP _]. exact HP.
Qed.

Lemma upload_program_issued (self : C) (program_name program_text : string)
    (open_program : bool) :
  issued (upload_program self program_name program_text open_program) =
  issued (snd (upload_program_try program_name program_text open_program (enter self))).
Proof.
  unfold upload_program.
  destruct (upload_program_try program_name program_text open_program (enter self))
    as [[[]| |msg] f]; reflexivity.
Qed.

(** The calls of [upload_program] when both status queries return: the
    queries, the commands of the conflict plan up to the first that
    raises, and, when none raises, the calls of the sections. *)
Lemma upload_program_trace (self : C) (program_name program_text : string)
    (open_program : bool) (pg_status_list : list Status) (rcp_status : Status)
    (c1 c2 : C) :
  get_pc_status self 31 = (Ok pg_status_list, c1) ->
  get_rcp_status c1 = (Ok rcp_status, c2) ->
  (forall element,
      find (same_program program_name) pg_status_list = Some element ->
      (1 <= thread_num element)%Z) ->
  exists t,
    issued (upload_program self program_name program_text open_program) =
    [Get_pc_status 31; Get_rcp_status]
    ++ fst (fst (run (conflict_plan program_name pg_status_list rcp_status) c2)) ++ t
    /\ forallb is_section_call t = true
    /\ (snd (fst (run (conflict_plan program_name pg_status_list rcp_status) c2)) <> None ->
        t = []).
Proof.
  intros Hpc Hrcp Hnum.
  rewrite upload_program_issued, upload_program_try_split.
  rewrite (resolve_conflicts_issue program_name (enter self)
             pg_status_list rcp_status c1 c2 Hpc Hrcp Hnum).
  rewrite issue_run. cbn [client issued result enter app].
  destruct (run (conflict_plan program_name pg_status_list rcp_status) c2)
    as [[done [msg|]] c3]; cbn [fst snd flow_of].
  - exists []. rewrite app_nil_r. auto.
  - destruct (upload_sections_traces program_name program_text open_program
                {| client := c3;
                   issued := [Get_pc_status 31; Get_rcp_status] ++ done;
                   result := UploadResult_new |}) as [t [Et Pt]].
    cbn [issued] in Et. exists t. cbn [app] in *. rewrite Et.
    split; [reflexivity|]. split; [exact Pt|congruence].
Qed.

(** C4, as the code has it.  When both status queries return, and the
    first status entry that exists with the name of the program, whatever
    the case, has a thread number of at least 1: for a running entry the
    abort with the mask [1 << (thread_num - 1)] is the first command, the
    kill with the same mask follows it when the abort returns, and the
    call ends there when the abort raises; for an entry that is not
    running the kill is the first command and no abort is issued.  No
    other thread is aborted or killed, and the sections are pushed after
    these commands. *)
Theorem upload_program_first_thread (self : C) (program_name program_text : string)
    (open_program : bool) (pg_status_list : list Status) (rcp_status element : Status)
    (c1 c2 : C) :
  get_pc_status self 31 = (Ok pg_status_list, c1) ->
  get_rcp_status c1 = (Ok rcp_status, c2) ->
  find (same_program program_name) pg_status_list = Some element ->
  (1 <= thread_num element)%Z ->
  let mask := thread_mask element in
  let calls := issued (upload_program self program_name program_text open_program) in
  if is_running element then
    match fst (pc_abort c2 mask) with
    | Ok _ =>
        exists t,
          calls = [Get_pc_status 31; Get_rcp_status; Pc_abort mask; Pc_kill mask] ++ t
          /\ forallb (fun ev => negb (is_thread_command ev)) t = true
    | Raise _ => calls = [Get_pc_status 31; Get_rcp_status; Pc_abort mask]
    end
  else
    exists t,
      calls = [Get_pc_status 31; Get_rcp_status; Pc_kill mask] ++ t
      /\ forallb (fun ev => negb (is_thread_command ev)) t = true.
Proof.
  intros Hpc Hrcp Hfind Hnum. cbv zeta.
  assert (Hall : forall e, find (same_program program_name) pg_status_list = Some e ->
                           (1 <= thread_num e)%Z) by (intros e E; congruence).
  destruct (upload_program_trace self program_name program_text open_program
              pg_status_list rcp_status c1 c2 Hpc Hrcp Hall) as [t [Et [Pt Hfail]]].
  rewrite Et. clear Et.
  assert (Hsec : forallb (fun ev => negb (is_thread_command ev)) t = true).
  { apply (forallb_impl is_section_call); [|exact Pt]. intros []; simpl; congruence. }
  set (tail := if same_program program_name rcp_status
               then rcp_plan (is_running rcp_status) else []).
  assert (Htail : forall c, forallb (fun ev => negb (is_thread_command ev))
                              (fst (fst (run tail c))) = true).
  { intros c. apply run_forallb. unfold tail, rcp_plan.
    destruct (same_program program_name rcp_status); [|reflexivity].
    destruct (is_running rcp_status); reflexivity. }
  unfold conflict_plan, thread_plan in *. rewrite Hfind in *. fold tail in Hfail |- *.
  destruct (is_running element); cbn [app run perform] in *.
  - destruct (pc_abort c2 (thread_mask element)) as [[[]|msg] c3]; cbn [fst] in *.
    + destruct (pc_kill c3 (thread_mask element)) as [[[]|msg] c4].
      * specialize (Htail c4).
        destruct (run tail c4) as [[done failure] c5]; cbn [fst snd app] in *.
        exists (done ++ t). split; [reflexivity|].
        rewrite forallb_app, Htail, Hsec. reflexivity.
      * cbn [fst snd app] in *. exists []. rewrite Hfail by discriminate.
        split; reflexivity.
    + cbn [fst snd app] in *. rewrite Hfail by discriminate. reflexivity.
  - destruct (pc_kill c2 (thread_mask element)) as [[[]|msg] c4].
    + specialize (Htail c4).
      destruct (run tail c4) as [[done failure] c5]; cbn [fst snd app] in *.
      exists (done ++ t). split; [reflexivity|].
      rewrite forallb_app, Htail, Hsec. reflexivity.
    + cbn [fst snd app] in *. exists []. rewrite Hfail by discriminate.
      split; reflexivity.
Qed.

End Traces.

Section EarlyReturn.

Context {C : Type} `{TelnetClient C}.

(** A thread number below 1 in the first entry that holds the program
    ends the conflict resolution with an exception. *)
Lemma resolve_conflicts_negative (program_name : string) (f : frame C)
    (pg_status_list : list Status) (rcp_status element : Status) (c1 c2 : C) :
  get_pc_status (client f) 31 = (Ok pg_status_list, c1) ->
  get_rcp_status c1 = (Ok rcp_status, c2) ->
  find (same_program program_name) pg_status_list = Some element ->
  (thread_num element < 1)%Z ->
  fst (resolve_conflicts program_name f) = Except "negative shift count".
Proof.
  intros Hpc Hrcp Hfind Hnum.
  unfold resolve_conflicts, get_status_pc.
  unfold bind at 1. unfold call at 1. rewrite Hpc.
  unfold bind at 1. unfold call at 1. cbn [client issued result]. rewrite Hrcp.
  set (body := fun element : Status => _).
  destruct (find_split _ _ _ Hfind) as [before [after [El [Hb He]]]].
  unfold bind at 1. rewrite El, for_each_skip.
  2:{ eapply Forall_impl; [|exact Hb]. intros y Hy g. unfold body, same_program in *.
      destruct (is_exist y); [|reflexivity]. simpl in Hy. rewrite Hy. reflexivity. }
  cbn [for_each]. unfold body at 1. unfold same_program in He.
  apply andb_true_iff in He as [He1 He2]. rewrite He1, He2.
  rewrite (lshift_negative element Hnum).
  destruct (is_running element); reflexivity.
Qed.

(** A conflict resolution that ends normally has issued its whole plan,
    and no command of it has raised. *)
Lemma resolve_conflicts_next (program_name : string) (f f1 : frame C) (u : unit) :
  resolve_conflicts program_name f = (Next u, f1) ->
  exists pg_status_list c1 rcp_status c2,
    get_pc_status (client f) 31 = (Ok pg_status_list, c1)
    /\ get_rcp_status c1 = (Ok rcp_status, c2)
    /\ run (conflict_plan program_name pg_status_list rcp_status) c2
       = (conflict_plan program_name pg_status_list rcp_status, None, client f1)
    /\ issued f1 = issued f ++ [Get_pc_status 31; Get_rcp_status]
                   ++ conflict_plan program_name pg_status_list rcp_status
    /\ result f1 = result f.
Proof.
  intros E.
  destruct (get_pc_status (client f) 31) as [[l|msg] c1] eqn:Hpc.
  2:{ unfold resolve_conflicts, get_status_pc in E.
      unfold bind at 1 in E. unfold call at 1 in E. rewrite Hpc in E. discriminate. }
  destruct (get_rcp_status c1) as [[r|msg] c2] eqn:Hrcp.
  2:{ unfold resolve_conflicts, get_status_pc in E.
      unfold bind at 1 in E. unfold call at 1 in E. rewrite Hpc in E.
      unfold bind at 1 in E. unfold call at 1 in E. cbn [client] in E.
      rewrite Hrcp in E. discriminate. }
  assert (Hnum : forall e, find (same_program program_name) l = Some e ->
                           (1 <= thread_num e)%Z).
  { intros e He. destruct (Z_lt_le_dec (thread_num e) 1) as [Hlt|Hle]; [|exact Hle].
    pose proof (resolve_conflicts_negative program_name f l r e c1 c2 Hpc Hrcp He Hlt)
      as X. rewrite E in X. discriminate. }
  rewrite (resolve_conflicts_issue program_name f l r c1 c2 Hpc Hrcp Hnum) in E.
  rewrite issue_run in E. cbn [client issued result] in E.
  pose proof (run_complete (conflict_plan program_name l r) c2) as Hc.
  destruct (run (conflict_plan program_name l r) c2) as [[done [msg|]] c3] eqn:Erun;
    cbn [flow_of fst snd] in *; [discriminate|].
  injection E as _ <-. rewrite (Hc eq_refl) in *.
  exists l, c1, r, c2. cbn [client issued result].
  rewrite <- app_assoc. auto.
Qed.

(** The sections end by [return] only with the not-found message or the
    not-valid message, and then they have made no call. *)
Lemma upload_sections_return (program_name program_text : string)
    (open_program : bool) (f f' : frame C) :
  upload_sections program_name program_text open_program f = (Return, f') ->
  client f' = client f /\ issued f' = issued f
  /\ ((find_section program_text program_name "program" = Ok ""
       /\ result f' = set_error_message (Some (not_found_message program_name)) (result f))
      \/ (exists pg_string,
             find_section program_text program_name "program" = Ok pg_string
             /\ is_pg_valid pg_string = Ok false
             /\ result f' = set_error_message (Some (not_valid_message program_name))
                              (result f))).
Proof.
  assert (Hempty : forall s, truthy s = false -> s = "").
  { intros [|a s]; [reflexivity|discriminate]. }
  run_sections; intros E; try discriminate; injection E as <-;
    cbn [client issued result]; (split; [reflexivity|]); (split; [reflexivity|]);
    repeat match goal with
    | Ht : truthy ?s = false |- _ => apply Hempty in Ht; subst s
    end;
    first [ left; split; reflexivity
          | right; eexists; split; [reflexivity|split; [eassumption|reflexivity]] ].
Qed.

(** The frame in which the conflict resolution ends when the first entry
    that holds the program has a thread number below 1: the two status
    queries are the only calls. *)
Lemma resolve_conflicts_negative_frame (program_name : string) (f : frame C)
    (pg_status_list : list Status) (rcp_status element : Status) (c1 c2 : C) :
  get_pc_status (client f) 31 = (Ok pg_status_list, c1) ->
  get_rcp_status c1 = (Ok rcp_status, c2) ->
  find (same_program program_name) pg_status_list = Some element ->
  (thread_num element < 1)%Z ->
  resolve_conflicts program_name f =
  (Except "negative shift count",
   {| client := c2;
      issued := issued f ++ [Get_pc_status 31; Get_rcp_status];
      result := result f |}).
Proof.
  intros Hpc Hrcp Hfind Hnum.
  unfold resolve_conflicts, get_status_pc.
  unfold bind at 1. unfold call at 1. rewrite Hpc.
  unfold bind at 1. unfold call at 1. cbn [client issued result]. rewrite Hrcp.
  cbn [client issued result]. rewrite <- app_assoc. cbn [app].
  set (body := fun element : Status => _).
  destruct (find_split _ _ _ Hfind) as [before [after [El [Hb He]]]].
  unfold bind at 1. rewrite El, for_each_skip.
  2:{ eapply Forall_impl; [|exact Hb]. intros y Hy g. unfold body, same_program in *.
      destruct (is_exist y); [|reflexivity]. simpl in Hy. rewrite Hy. reflexivity. }
  cbn [for_each]. unfold body at 1. unfold same_program in He.
  apply andb_true_iff in He as [He1 He2]. rewrite He1, He2.
  rewrite (lshift_negative element Hnum).
  destruct (is_running element); reflexivity.
Qed.

(** The calls of [upload_program] by what the status queries return:
    the conflict commands are issued whatever the text is. *)
Lemma upload_program_conflict_calls (self : C) (program_name program_text : string)
    (open_program : bool) :
  let f := upload_program self program_name program_text open_program in
  match get_pc_status self 31 with
  | (Raise _, _) => issued f = [Get_pc_status 31]
  | (Ok pg_status_list, c1) =>
      match get_rcp_status c1 with
      | (Raise _, _) => issued f = [Get_pc_status 31; Get_rcp_status]
      | (Ok rcp_status, c2) =>
          if first_thread_valid program_name pg_status_list then
            let '(done, failure, _) :=
              run (conflict_plan program_name pg_status_list rcp_status) c2 in
            exists after,
              issued f = [Get_pc_status 31; Get_rcp_status] ++ done ++ after
              /\ forallb is_section_call after = true
              /\ (failure <> None -> after = [])
          else issued f = [Get_pc_status 31; Get_rcp_status]
      end
  end.
Proof.
  cbv zeta.
  destruct (get_pc_status self 31) as [[l|msg] c1] eqn:Hpc.
  2:{ rewrite upload_program_issued, upload_program_try_split.
      unfold resolve_conflicts, get_status_pc.
      unfold bind at 1. unfold call at 1. cbn [enter client]. rewrite Hpc. reflexivity. }
  destruct (get_rcp_status c1) as [[r|msg] c2] eqn:Hrcp.
  2:{ rewrite upload_program_issued, upload_program_try_split.
      unfold resolve_conflicts, get_status_pc.
      unfold bind at 1. unfold call at 1. cbn [enter client]. rewrite Hpc.
      unfold bind at 1. unfold call at 1. cbn [client]. rewrite Hrcp. reflexivity. }
  unfold first_thread_valid.
  destruct (find (same_program program_name) l) as [e|] eqn:Hfind.
  - destruct (1 <=? thread_num e)%Z eqn:Hle.
    + apply Z.leb_le in Hle.
      assert (Hnum : forall x, find (same_program program_name) l = Some x ->
                               (1 <= thread_num x)%Z) by (intros x E; congruence).
      destruct (upload_program_trace self program_name program_text open_program
                  l r c1 c2 Hpc Hrcp Hnum) as [t [Et [Pt Hfail]]].
      destruct (run (conflict_plan program_name l r) c2) as [[done failure] c3];
        cbn [fst snd] in *.
      exists t. auto.
    + apply Z.leb_gt in Hle.
      rewrite upload_program_issued, upload_program_try_split.
      rewrite (resolve_conflicts_negative_frame program_name (enter self) l r e c1 c2
                 Hpc Hrcp Hfind Hle). reflexivity.
  - assert (Hnum : forall x, find (same_program program_name) l = Some x ->
                             (1 <= thread_num x)%Z) by (intros x E; congruence).
    destruct (upload_program_trace self program_name program_text open_program
                l r c1 c2 Hpc Hrcp Hnum) as [t [Et [Pt Hfail]]].
    destruct (run (conflict_plan program_name l r) c2) as [[done failure] c3];
      cbn [fst snd] in *.
    exists t. auto.
Qed.

(** C10.  In every call, whatever the text is, the conflict resolution is
    carried out first: after the two status queries, the commands of the
    conflict plan (abort and kill of the first thread that holds the
    program, hold and kill of the continuous-path program that holds it),
    which depends on the name and on the status only, are issued up to the
    first that raises, and only calls of the sections follow them, none
    when a command raised; when a status query raises, or the thread
    number of the entry is below 1, the call ends there.  So the calls of
    the conflict resolution come before every call of the sections.  When
    [upload_program] ends by the [return] of the not-found or of the
    not-valid branch, both status queries have returned, every command of
    the conflict plan has been issued and has returned, no call follows
    them, and the client is left in the state that these commands put it
    in. *)
Theorem upload_program_conflicts_first (self : C) (program_name program_text : string)
    (open_program : bool) :
  let f := upload_program self program_name program_text open_program in
  (exists before after,
      issued f = before ++ after
      /\ forallb is_conflict_call before = true
      /\ forallb is_section_call after = true)
  /\ match get_pc_status self 31 with
     | (Raise _, _) => issued f = [Get_pc_status 31]
     | (Ok pg_status_list, c1) =>
         match get_rcp_status c1 with
         | (Raise _, _) => issued f = [Get_pc_status 31; Get_rcp_status]
         | (Ok rcp_status, c2) =>
             if first_thread_valid program_name pg_status_list then
               let '(done, failure, _) :=
                 run (conflict_plan program_name pg_status_list rcp_status) c2 in
               exists after,
                 issued f = [Get_pc_status 31; Get_rcp_status] ++ done ++ after
                 /\ forallb is_section_call after = true
                 /\ (failure <> None -> after = [])
             else issued f = [Get_pc_status 31; Get_rcp_status]
         end
     end
  /\ (fst (upload_program_try program_name program_text open_program (enter self))
      = Return ->
      exists pg_status_list c1 rcp_status c2,
        get_pc_status self 31 = (Ok pg_status_list, c1)
        /\ get_rcp_status c1 = (Ok rcp_status, c2)
        /\ run (conflict_plan program_name pg_status_list rcp_status) c2
           = (conflict_plan program_name pg_status_list rcp_status, None, client f)
        /\ issued f = [Get_pc_status 31; Get_rcp_status]
                      ++ conflict_plan program_name pg_status_list rcp_status
        /\ program_uploaded (result f) = false
        /\ ((find_section program_text program_name "program" = Ok ""
             /\ error_message (result f) = Some (not_found_message program_name))
            \/ (exists pg_string,
                   find_section program_text program_name "program" = Ok pg_string
                   /\ is_pg_valid pg_string = Ok false
                   /\ error_message (result f) = Some (not_valid_message program_name)))).
Proof.
  cbv zeta. split; [|split].
  - rewrite upload_program_issued, upload_program_try_split.
    destruct (resolve_conflicts_traces program_name (enter self)) as [t [Et Pt]].
    destruct (resolve_conflicts program_name (enter self)) as [[[]| |msg] f1];
      cbn [snd enter issued app] in *.
    + destruct (upload_sections_traces program_name program_text open_program f1)
        as [t' [Et' Pt']].
      exists t, t'. rewrite Et', Et. auto.
    + exists t, []. rewrite Et, app_nil_r. auto.
    + exists t, []. rewrite Et, app_nil_r. auto.
  - exact (upload_program_conflict_calls self program_name program_text open_program).
  - unfold upload_program. rewrite upload_program_try_split.
    destruct (resolve_conflicts program_name (enter self)) as [[[]| |msg] f1] eqn:Er.
    + destruct (resolve_conflicts_next program_name (enter self) f1 tt Er)
        as [l [c1 [r [c2 [Hpc [Hrcp [Hrun [Hiss Hres]]]]]]]].
      destruct (upload_sections program_name program_text open_program f1)
        as [[[]| |msg] f2] eqn:Es; cbn [fst]; try discriminate.
      intros _.
      destruct (upload_sections_return _ _ _ _ _ Es) as [Hc [Hi Hm]].
      exists l, c1, r, c2. rewrite Hc, Hi, Hiss.
      repeat split; try assumption.
      * destruct Hm as [[_ ->]|[pg [_ [_ ->]]]]; cbn; rewrite Hres; reflexivity.
      * destruct Hm as [[Hf ->]|[pg [Hf [Hv ->]]]]; [left|right].
        -- split; [exact Hf|reflexivity].
        -- exists pg. repeat split; assumption.
    + pose proof (resolve_conflicts_inert program_name (enter self)) as [_ X].
      rewrite Er in X. cbn in X. congruence.
    + cbn [fst]. discriminate.
Qed.

End EarlyReturn.

(** ** Deletion *)

Section Deletion.

Context {C : Type} `{TelnetClient C}.

Lemma for_each_delete (pg_list : list string) (f : frame C) :
  for_each pg_list
    (fun pg_name => call (Pg_delete pg_name) (fun c => pg_delete c pg_name) ;; ret Continue) f
  = issue (map Pg_delete pg_list) f.
Proof.
  revert f. induction pg_list as [|pg_name pg_list IH]; intros f; [reflexivity|].
  cbn [for_each map issue]. unfold bind, call, ret. cbn [perform].
  destruct (pg_delete (client f) pg_name) as [[[]|msg] c]; [apply IH|reflexivity].
Qed.

Lemma existsb_In (x : string) (l : list string) :
  In x l -> existsb (String.eqb x) l = true.
Proof.
  intros Hin. apply existsb_exists. exists x. split; [exact Hin|apply String.eqb_refl].
Qed.

(** C6.  [delete_programs] with [force], when the status of the
    continuous-path program reports a program whose name is in the list:
    after the status query the commands are those of the plan "hold when
    running, kill, then one delete for each name in the order of the list",
    issued in this order up to and including the first command that
    raises; nothing is issued after that command, and the whole plan is
    issued when no command raises. *)
Theorem delete_programs_forced (self : C) (pg_list : list string)
    (rcp_status : Status) (c1 : C) :
  get_rcp_status self = (Ok rcp_status, c1) ->
  is_exist rcp_status = true ->
  In (name rcp_status) pg_list ->
  let plan := rcp_plan (is_running rcp_status) ++ map Pg_delete pg_list in
  let '(done, failure, c) := run plan c1 in
  delete_programs self pg_list true =
    (flow_of failure,
     {| client := c; issued := Get_rcp_status :: done; result := UploadResult_new |})
  /\ (exists rest, plan = done ++ rest)
  /\ (failure = None -> done = plan)
  /\ (forall msg, failure = Some msg -> exists before ev, done = before ++ [ev]).
Proof.
  intros Hrcp Hex Hin. cbv zeta.
  pose proof (run_prefix (rcp_plan (is_running rcp_status) ++ map Pg_delete pg_list) c1)
    as Hpre.
  pose proof (run_complete (rcp_plan (is_running rcp_status) ++ map Pg_delete pg_list) c1)
    as Hall.
  pose proof (run_failure (rcp_plan (is_running rcp_status) ++ map Pg_delete pg_list) c1)
    as Hfail.
  assert (E : delete_programs self pg_list true =
              issue (rcp_plan (is_running rcp_status) ++ map Pg_delete pg_list)
                {| client := c1; issued := [Get_rcp_status]; result := UploadResult_new |}).
  { unfold delete_programs.
    destruct pg_list as [|n0 pg_list0] eqn:El; [destruct Hin|]. rewrite <- El in *.
    assert (Hlen : (List.length pg_list =? 0)%nat = false) by (rewrite El; reflexivity).
    rewrite Hlen. rewrite issue_app.
    unfold bind at 1. cbn [ret].
    unfold bind at 1. unfold bind at 1. unfold call at 1. cbn [enter client issued result].
    rewrite Hrcp. cbn [app]. rewrite Hex, (existsb_In _ _ Hin).
    unfold bind at 3.
    assert (Es : forall g,
               ((if is_running rcp_status then call Rcp_hold rcp_hold else ret tt) ;;
                call Kill_rcp kill_rcp) g = issue (rcp_plan (is_running rcp_status)) g).
    { intros g. unfold rcp_plan.
      destruct (is_running rcp_status); cbn [app issue]; unfold bind, call, ret;
        cbn [perform];
        repeat match goal with
        | |- context [rcp_hold ?c] => destruct (rcp_hold c) as [[[]|?] ?]
        | |- context [kill_rcp ?c] => destruct (kill_rcp c) as [[[]|?] ?]
        end; reflexivity. }
    rewrite Es.
    destruct (issue (rcp_plan (is_running rcp_status)) _) as [[[]| |msg] f1];
      try reflexivity.
    apply for_each_delete. }
  rewrite E, issue_run. cbn [client issued result app].
  destruct (run (rcp_plan (is_running rcp_status) ++ map Pg_delete pg_list) c1)
    as [[done failure] c]; cbn [fst snd] in *.
  repeat split; auto.
Qed.

End Deletion.

(** ** The scenarios on the scripted client *)

Import Simulator Scenario.

(** C1: the code at a failing input, and in general.  In every result the
    flag [trans_points_exist] is equal to [trans_points_uploaded], so it
    cannot record a section that was found and whose push failed.  On a
    client whose fourth call raises, the text holds a [Trans] section, the
    program is pushed, the push of the trans bytes raises, and the result
    has [trans_points_exist] false; [all_successful] is true of it. *)
Theorem upload_program_exist_flag_after_push :
  (forall (C : Type) (telnet : TelnetClient C) (self : C)
          (program_name program_text : string) (open_program : bool),
      let r := result (upload_program self program_name program_text open_program) in
      trans_points_exist r = trans_points_uploaded r)
  /\ (let f := upload_program (idle (Some 3)) "TEST1" test1_with_trans false in
      find_section test1_with_trans "TEST1" "trans"
        = Ok (join NL [".TRANS"; "p1 0 0 0"; ".END"])
      /\ issued f
         = [Get_pc_status 31; Get_rcp_status;
            Upload_program
              (utf8 (join NL [".PROGRAM TEST1()"; "  SETCONDW 1=1.0"; ".END"]));
            Upload_program (utf8 (join NL [".TRANS"; "p1 0 0 0"; ".END"]))]
      /\ program_uploaded (result f) = true
      /\ trans_points_uploaded (result f) = false
      /\ trans_points_exist (result f) = false
      /\ error_message (result f) = Some "Connection lost"
      /\ all_successful (result f) = true).
Proof.
  split.
  - intros C telnet self program_name program_text open_program. cbv zeta.
    destruct (upload_program_flags self program_name program_text open_program)
      as [Ht _]. cbv zeta in Ht. auto.
  - vm_compute. repeat split; reflexivity.
Qed.

Lemma upload_program_uploaded_exist_witness :
  trans_points_exist
    (result (upload_program (idle None) "TEST1" test1_with_trans false)) = true.
Proof.
  apply (proj1 (upload_program_uploaded_exist (idle None) "TEST1" test1_with_trans false)).
  reflexivity.
Defined.

(** C3, as stated, fails: on a client whose first call raises, the
    [Program] section is missing and the [error_message] is the message of
    the exception, not the not-found message. *)
Lemma upload_program_not_found_after_failure :
  let f := upload_program (idle (Some 0)) "TEST1" other_program false in
  find_section other_program "TEST1" "program" = Ok ""
  /\ issued f = [Get_pc_status 31]
  /\ error_message (result f) = Some "Connection lost"
  /\ error_message (result f) <> Some (not_found_message "TEST1").
Proof. vm_compute. repeat split; try reflexivity. discriminate. Qed.

Lemma upload_program_not_found_witness :
  let f := upload_program (thread2_running None) "TEST1" other_program false in
  program_uploaded (result f) = false
  /\ forallb (fun ev => negb (is_upload ev)) (issued f) = true
  /\ error_message (result f) = Some (not_found_message "TEST1").
Proof.
  pose proof (upload_program_not_found (thread2_running None) "TEST1" other_program false
                eq_refl) as X.
  cbv zeta in X. destruct X as [X1 [_ [_ [_ [_ [X6 X7]]]]]].
  cbv zeta. split; [exact X1|]. split; [exact X6|exact X7].
Defined.

(** C4, as stated, fails: thread 2 runs the program; on a client whose
    third call raises, the abort is issued and no kill follows it; on a
    client whose second call raises, neither is issued. *)
Lemma upload_program_kill_not_issued :
  find (same_program "TEST1") (pc (thread2_running None)) = Some (slot 2 "TEST1" true)
  /\ issued (upload_program (thread2_running (Some 2)) "TEST1" test1_with_trans false)
     = [Get_pc_status 31; Get_rcp_status; Pc_abort 2]
  /\ ~ In (Pc_kill 2)
         (issued (upload_program (thread2_running (Some 2)) "TEST1" test1_with_trans false))
  /\ issued (upload_program (thread2_running (Some 1)) "TEST1" test1_with_trans false)
     = [Get_pc_status 31; Get_rcp_status].
Proof.
  vm_compute. repeat split; try reflexivity.
  intros [X|[X|[X|[]]]]; discriminate.
Qed.

Lemma upload_program_first_thread_witness :
  exists t,
    issued (upload_program (thread2_running None) "TEST1" test1_with_trans false)
    = [Get_pc_status 31; Get_rcp_status; Pc_abort 2; Pc_kill 2] ++ t
    /\ forallb (fun ev => negb (is_thread_command ev)) t = true.
Proof.
  assert (Hnum : (1 <= thread_num (slot 2 "TEST1" true))%Z) by (simpl; lia).
  exact (upload_program_first_thread (thread2_running None) "TEST1" test1_with_trans false
           (pc (thread2_running None)) (vacant 0) (slot 2 "TEST1" true)
           (thread2_running None) (thread2_running None)
           eq_refl eq_refl eq_refl Hnum).
Defined.

Lemma delete_programs_forced_witness :
  delete_programs (rcp_running_A None) ["A"; "B"] true
  = (Next tt,
     {| client := rcp_running_A None;
        issued := [Get_rcp_status; Rcp_hold; Kill_rcp; Pg_delete "A"; Pg_delete "B"];
        result := UploadResult_new |}).
Proof.
  exact (proj1 (delete_programs_forced (rcp_running_A None) ["A"; "B"]
                  (slot 0 "A" true) (rcp_running_A None)
                  eq_refl eq_refl (or_introl eq_refl))).
Defined.

Lemma upload_program_conflicts_first_witness :
  (exists after,
      issued (upload_program (thread2_running None) "TEST1" test1_with_trans true)
      = [Get_pc_status 31; Get_rcp_status] ++ [Pc_abort 2; Pc_kill 2] ++ after
      /\ forallb is_section_call after = true
      /\ (@None string <> None -> after = []))
  /\ (let f := upload_program (thread2_running None) "TEST1" test1_not_valid false in
      exists pg_status_list c1 rcp_status c2,
        get_pc_status (thread2_running None) 31 = (Ok pg_status_list, c1)
        /\ get_rcp_status c1 = (Ok rcp_status, c2)
        /\ run (conflict_plan "TEST1" pg_status_list rcp_status) c2
           = (conflict_plan "TEST1" pg_status_list rcp_status, None, client f)
        /\ issued f = [Get_pc_status 31; Get_rcp_status]
                      ++ conflict_plan "TEST1" pg_status_list rcp_status
        /\ program_uploaded (result f) = false
        /\ ((find_section test1_not_valid "TEST1" "program" = Ok ""
             /\ error_message (result f) = Some (not_found_message "TEST1"))
            \/ (exists pg_string,
                   find_section test1_not_valid "TEST1" "program" = Ok pg_string
                   /\ is_pg_valid pg_string = Ok false
                   /\ error_message (result f) = Some (not_valid_message "TEST1")))).
Proof.
  split.
  - exact (proj1 (proj2 (upload_program_conflicts_first (thread2_running None) "TEST1"
                           test1_with_trans true))).
  - exact (proj2 (proj2 (upload_program_conflicts_first (thread2_running None) "TEST1"
                           test1_not_valid false)) eq_refl).
Defined.

(** The scenarios of the specification. *)
Example scenario_B :
  let f := upload_program (thread2_running None) "TEST1" test1_with_trans false in
  issued f
  = [Get_pc_status 31; Get_rcp_status; Pc_abort 2; Pc_kill 2;
     Upload_program (utf8 (join NL [".PROGRAM TEST1()"; "  SETCONDW 1=1.0"; ".END"]));
     Upload_program (utf8 (join NL [".TRANS"; "p1 0 0 0"; ".END"]))]
  /\ all_successful (result f) = true.
Proof. vm_compute. split; reflexivity. Qed.

Example scenario_D :
  let f := upload_program (thread2_running None) "TEST1" test1_not_valid false in
  issued f = [Get_pc_status 31; Get_rcp_status; Pc_abort 2; Pc_kill 2]
  /\ program_uploaded (result f) = false
  /\ error_message (result f) = Some "Program TEST1 is not valid.".
Proof. vm_compute. repeat split; reflexivity. Qed.

Example deletion_stops_at_failure :
  delete_programs (rcp_running_A (Some 3)) ["A"; "B"] true
  = (Except "Connection lost",
     {| client := rcp_running_A (Some 0);
        issued := [Get_rcp_status; Rcp_hold; Kill_rcp; Pg_delete "A"];
        result := UploadResult_new |}).
Proof. reflexivity. Qed.

Example validator_examples :
  map is_pg_valid
    ["SETCONDW 1a=1.0"; "SETCONDW 1=1.0,abc"; "SETCONDW 12=1.5,2.0,3"; "SETCONDW1 5=0";
     "SETCONDW =1"; "SETCONDW 1"; "  HOME"]
  = [Ok false; Ok false; Ok true; Ok true; Ok false; Ok false; Ok true].
Proof. vm_compute. reflexivity. Qed.

(** ** The sections of the upload, as a plan *)

Ltac run_client :=
  repeat (cbn [run perform fst snd client issued result negb app flow_of];
          match goal with
          | |- context [khi_telnet_lib.upload_program ?c ?b] =>
              destruct (khi_telnet_lib.upload_program c b) as [[[]|?] ?]
          | |- context [rcp_prime ?c ?b] => destruct (rcp_prime c b) as [[[]|?] ?]
          | |- context [pc_abort ?c ?b] => destruct (pc_abort c b) as [[[]|?] ?]
          | |- context [pc_kill ?c ?b] => destruct (pc_kill c b) as [[[]|?] ?]
          | |- context [get_pc_status ?c ?b] => destruct (get_pc_status c b) as [[?|?] ?]
          | |- context [get_rcp_status ?c] => destruct (get_rcp_status c) as [[?|?] ?]
          end);
  cbn [run perform fst snd client issued result negb app flow_of].

Section SectionPlan.

Context {C : Type} `{TelnetClient C}.

(** The sections issue their plan, up to the first call that raises. *)
Lemma upload_sections_run (program_name program_text : string)
    (open_program : bool) (f : frame C) :
  let plan := section_plan program_name program_text open_program in
  let '(done, failure, c) := run plan (client f) in
  fst (upload_sections program_name program_text open_program f)
    = sections_flow plan failure
  /\ issued (snd (upload_sections program_name program_text open_program f))
     = issued f ++ done
  /\ client (snd (upload_sections program_name program_text open_program f)) = c.
Proof.
  destruct (find_section_returns program_text program_name Program) as [pg Epg].
  destruct (find_section_returns program_text program_name Trans) as [tr Etr].
  destruct (find_section_returns program_text program_name Joints) as [jo Ejo].
  cbn [keyword] in Epg, Etr, Ejo.
  cbv zeta. unfold section_plan, optional_push, upload_sections, bind, lift, call,
    assign, ret, return_.
  rewrite Epg, Etr, Ejo.
  destruct (truthy pg).
  2:{ cbn. rewrite app_nil_r. auto. }
  destruct (is_pg_valid_returns pg) as [[|] Ev]; rewrite Ev.
  2:{ cbn. rewrite app_nil_r. auto. }
  destruct (truthy tr), (truthy jo), open_program; run_client;
    rewrite <- ?app_assoc; auto.
Qed.

Lemma upload_program_client (self : C) (program_name program_text : string)
    (open_program : bool) :
  client (upload_program self program_name program_text open_program) =
  client (snd (upload_program_try program_name program_text open_program (enter self))).
Proof.
  unfold upload_program.
  destruct (upload_program_try program_name program_text open_program (enter self))
    as [[[]| |msg] f]; reflexivity.
Qed.

Lemma upload_program_error (self : C) (program_name program_text : string)
    (open_program : bool) (msg : string) :
  fst (upload_program_try program_name program_text open_program (enter self))
    = Except msg ->
  error_message (result (upload_program self program_name program_text open_program))
    = Some msg.
Proof.
  unfold upload_program.
  destruct (upload_program_try program_name program_text open_program (enter self))
    as [[[]| |msg'] f]; cbn [fst]; try discriminate.
  intros E. injection E as ->. reflexivity.
Qed.

(** The body of the [try] statement when both status queries return:
    the conflict plan and the plan of the sections, run on the client. *)
Lemma upload_program_try_run (self : C) (program_name program_text : string)
    (open_program : bool) (pg_status_list : list Status) (rcp_status : Status)
    (c1 c2 : C) :
  get_pc_status self 31 = (Ok pg_status_list, c1) ->
  get_rcp_status c1 = (Ok rcp_status, c2) ->
  (forall element,
      find (same_program program_name) pg_status_list = Some element ->
      (1 <= thread_num element)%Z) ->
  let '(done, failure, c) :=
    run (conflict_plan program_name pg_status_list rcp_status
         ++ section_plan program_name program_text open_program) c2 in
  issued (snd (upload_program_try program_name program_text open_program (enter self)))
    = [Get_pc_status 31; Get_rcp_status] ++ done
  /\ client (snd (upload_program_try program_name program_text open_program
                    (enter self))) = c
  /\ (forall msg, failure = Some msg ->
       fst (upload_program_try program_name program_text open_program (enter self))
         = Except msg).
Proof.
  intros Hpc Hrcp Hnum.
  rewrite upload_program_try_split.
  rewrite (resolve_conflicts_issue program_name (enter self)
             pg_status_list rcp_status c1 c2 Hpc Hrcp Hnum).
  rewrite issue_run, run_app. cbn [client issued result enter app].
  destruct (run (conflict_plan program_name pg_status_list rcp_status) c2)
    as [[d1 [msg|]] c3]; cbn [flow_of].
  - cbn [fst snd issued client]. repeat split; auto.
    intros m E. injection E as ->. reflexivity.
  - pose proof (upload_sections_run program_name program_text open_program
                  {| client := c3;
                     issued := Get_pc_status 31 :: Get_rcp_status :: d1;
                     result := UploadResult_new |}) as Hs.
    cbv zeta in Hs. cbn [client issued] in Hs.
    destruct (run (section_plan program_name program_text open_program) c3)
      as [[d2 failure] c4].
    destruct Hs as [Hf [Hi Hc]]. rewrite Hi, Hc. repeat split; auto.
    intros m E. rewrite Hf, E. reflexivity.
Qed.

(** X4.  When both status queries return (and the first entry that holds
    the program has a thread number of at least 1), the calls of
    [upload_program] after the queries are the conflict plan followed by
    the plan of the sections, issued in this order up to and including the
    first call that raises; the client is left as these calls left it, and
    the message of the exception is the [error_message]. *)
Theorem upload_program_runs_plan (self : C) (program_name program_text : string)
    (open_program : bool) (pg_status_list : list Status) (rcp_status : Status)
    (c1 c2 : C) :
  get_pc_status self 31 = (Ok pg_status_list, c1) ->
  get_rcp_status c1 = (Ok rcp_status, c2) ->
  (forall element,
      find (same_program program_name) pg_status_list = Some element ->
      (1 <= thread_num element)%Z) ->
  let plan := conflict_plan program_name pg_status_list rcp_status
              ++ section_plan program_name program_text open_program in
  let '(done, failure, c) := run plan c2 in
  let f := upload_program self program_name program_text open_program in
  issued f = [Get_pc_status 31; Get_rcp_status] ++ done
  /\ client f = c
  /\ (exists rest, plan = done ++ rest)
  /\ (failure = None -> done = plan)
  /\ (forall msg, failure = Some msg -> error_message (result f) = Some msg).
Proof.
  intros Hpc Hrcp Hnum. cbv zeta.
  pose proof (run_prefix (conflict_plan program_name pg_status_list rcp_status
                          ++ section_plan program_name program_text open_program) c2)
    as Hpre.
  pose proof (run_complete (conflict_plan program_name pg_status_list rcp_status
                            ++ section_plan program_name program_text open_program) c2)
    as Hall.
  pose proof (upload_program_try_run self program_name program_text open_program
                pg_status_list rcp_status c1 c2 Hpc Hrcp Hnum) as Hmain.
  destruct (run (conflict_plan program_name pg_status_list rcp_status
                 ++ section_plan program_name program_text open_program) c2)
    as [[done failure] c]; cbn [fst snd] in *.
  destruct Hmain as [Hi [Hc He]].
  rewrite upload_program_issued, upload_program_client.
  repeat split; auto.
  intros msg E. apply upload_program_error, He, E.
Qed.

Lemma section_plan_harmless (program_name program_text : string) (open_program : bool) :
  forallb is_harmless (section_plan program_name program_text open_program) = true.
Proof.
  assert (Hne : forall s, truthy s = true -> utf8 s <> []).
  { intros [|a s]; [discriminate|]. intros _. cbn [utf8]. unfold utf8_char.
    destruct (code a <? 128)%N; discriminate. }
  assert (Hup : forall s, truthy s = true -> is_harmless (Upload_program (utf8 s)) = true).
  { intros s Hs. specialize (Hne s Hs). cbn. destruct (utf8 s); congruence. }
  assert (Hopt : forall o, forallb is_harmless (optional_push o) = true).
  { intros [s|msg]; [|reflexivity]. cbn [optional_push].
    destruct (truthy s) eqn:Hs; [|reflexivity].
    cbn [forallb]. rewrite (Hup s Hs). reflexivity. }
  unfold section_plan.
  destruct (find_section program_text program_name "program") as [pg|msg]; [|reflexivity].
  destruct (truthy pg) eqn:Hpg; [|reflexivity].
  destruct (is_pg_valid pg) as [[|]|msg]; try reflexivity.
  cbn [forallb]. rewrite (Hup pg Hpg), !forallb_app, !Hopt.
  destruct open_program; reflexivity.
Qed.

(** X5.  In every call of [upload_program] the calls are calls of the
    conflict resolution followed by an initial part of the plan of the
    sections: the program is pushed first, then the trans points, then the
    joints points, then comes [rcp_prime]; each at most once, a section
    only when it was found, and nothing when the program section is
    missing or not valid. *)
Theorem upload_program_section_order (self : C) (program_name program_text : string)
    (open_program : bool) :
  exists before after rest,
    issued (upload_program self program_name program_text open_program) = before ++ after
    /\ forallb is_conflict_call before = true
    /\ section_plan program_name program_text open_program = after ++ rest.
Proof.
  rewrite upload_program_issued, upload_program_try_split.
  destruct (resolve_conflicts_traces program_name (enter self)) as [t [Et Pt]].
  destruct (resolve_conflicts program_name (enter self)) as [[[]| |msg] f1];
    cbn [snd enter issued app] in *.
  - pose proof (upload_sections_run program_name program_text open_program f1) as Hs.
    cbv zeta in Hs.
    destruct (run_prefix (section_plan program_name program_text open_program)
                (client f1)) as [rest Hrest].
    destruct (run (section_plan program_name program_text open_program) (client f1))
      as [[done failure] c]; cbn [fst] in Hrest.
    destruct Hs as [_ [Hi _]].
    exists t, done, rest. rewrite Hi, Et. auto.
  - exists t, [], (section_plan program_name program_text open_program).
    rewrite Et, app_nil_r. auto.
  - exists t, [], (section_plan program_name program_text open_program).
    rewrite Et, app_nil_r. auto.
Qed.

(** X6.  [upload_program] never deletes a program and never pushes an
    empty payload, whatever the text and whatever the client does. *)
Theorem upload_program_harmless (self : C) (program_name program_text : string)
    (open_program : bool) :
  forallb is_harmless
    (issued (upload_program self program_name program_text open_program)) = true.
Proof.
  rewrite upload_program_issued, upload_program_try_split.
  destruct (resolve_conflicts_traces program_name (enter self)) as [t [Et Pt]].
  assert (Ht : forallb is_harmless t = true).
  { apply (forallb_impl is_conflict_call); [|exact Pt]. intros []; simpl; congruence. }
  destruct (resolve_conflicts program_name (enter self)) as [[[]| |msg] f1];
    cbn [snd enter issued app] in *; try (rewrite Et; exact Ht).
  pose proof (upload_sections_run program_name program_text open_program f1) as Hs.
  cbv zeta in Hs.
  pose proof (run_forallb is_harmless
                (section_plan program_name program_text open_program) (client f1)
                (section_plan_harmless program_name program_text open_program)) as Hd.
  destruct (run (section_plan program_name program_text open_program) (client f1))
    as [[done failure] c]; cbn [fst] in Hd.
  destruct Hs as [_ [Hi _]]. rewrite Hi, Et, forallb_app, Ht, Hd. reflexivity.
Qed.

End SectionPlan.

(** ** The result of the upload *)

Section UploadResults.

Context {C : Type} `{TelnetClient C}.

(** The result of the sections, from a fresh [result], by the way they
    end. *)
Lemma upload_sections_result (program_name program_text : string)
    (open_program : bool) (f : frame C) :
  result f = UploadResult_new ->
  let r := result (snd (upload_sections program_name program_text open_program f)) in
  match fst (upload_sections program_name program_text open_program f) with
  | Next _ =>
      error_message r = None
      /\ program_uploaded r = true
      /\ program_loaded r = open_program
      /\ trans_points_uploaded r = section_found program_name program_text Trans
      /\ joints_points_uploaded r = section_found program_name program_text Joints
  | Return => error_message r <> None /\ program_loaded r = false
  | Except _ => program_loaded r = false
  end.
Proof.
  intros Hr. unfold section_found. cbn [keyword].
  run_sections; cbn; rewrite ?Hr; cbn; repeat split; auto; discriminate.
Qed.

(** Of a result that [upload_program] returns, [all_successful] is
    [program_uploaded]. *)
Lemma all_successful_returned (self : C) (program_name program_text : string)
    (open_program : bool) :
  let r := result (upload_program self program_name program_text open_program) in
  all_successful r = program_uploaded r.
Proof.
  cbv zeta.
  destruct (upload_program_flags self program_name program_text open_program)
    as [Ht Hj]. cbv zeta in Ht, Hj.
  unfold all_successful. rewrite Ht, Hj.
  destruct (program_uploaded _), (trans_points_exist _), (joints_points_exist _);
    reflexivity.
Qed.

(** X1.  [all_successful] holds when the program was uploaded and each
    kind of points that exists was uploaded; of a result that
    [upload_program] returns it is equal to [program_uploaded], whatever
    happened to the points. *)
Theorem upload_program_all_successful (self : C) (program_name program_text : string)
    (open_program : bool) :
  (forall r,
      all_successful r = true <->
      program_uploaded r = true
      /\ (trans_points_exist r = true -> trans_points_uploaded r = true)
      /\ (joints_points_exist r = true -> joints_points_uploaded r = true))
  /\ (let r := result (upload_program self program_name program_text open_program) in
      all_successful r = program_uploaded r).
Proof.
  split.
  - intros r. unfold all_successful.
    destruct (program_uploaded r), (trans_points_uploaded r), (trans_points_exist r),
      (joints_points_uploaded r), (joints_points_exist r); cbn;
      split; try discriminate; try tauto; intros [? [? ?]]; auto; try discriminate.
  - exact (all_successful_returned self program_name program_text open_program).
Qed.

(** X2.  A result without [error_message] is a full success: the program
    was uploaded, the trans points and the joints points were uploaded
    exactly when the text holds them, and the program was loaded exactly
    when this was asked for.  A result with [program_loaded] has no
    [error_message]. *)
Theorem upload_program_no_error (self : C) (program_name program_text : string)
    (open_program : bool) :
  let r := result (upload_program self program_name program_text open_program) in
  (error_message r = None ->
   program_uploaded r = true
   /\ program_loaded r = open_program
   /\ trans_points_uploaded r = section_found program_name program_text Trans
   /\ joints_points_uploaded r = section_found program_name program_text Joints
   /\ all_successful r = true)
  /\ (program_loaded r = true -> error_message r = None /\ open_program = true).
Proof.
  cbv zeta.
  pose proof (all_successful_returned self program_name program_text open_program)
    as Hall. cbv zeta in Hall.
  revert Hall. unfold upload_program. rewrite upload_program_try_split.
  destruct (resolve_conflicts_inert program_name (enter self)) as [Hr Hf].
  destruct (resolve_conflicts program_name (enter self)) as [[[]| |msg] f1];
    cbn [fst snd] in Hr, Hf.
  - pose proof (upload_sections_result program_name program_text open_program f1 Hr)
      as Hs. cbv zeta in Hs.
    destruct (upload_sections program_name program_text open_program f1)
      as [[[]| |msg] f2]; cbn [fst snd result] in *; intros Hall.
    + destruct Hs as [He [Hp [Hl [Ht Hj]]]]. split.
      * intros _. rewrite Hall. auto.
      * intros E. rewrite Hl in E. auto.
    + destruct Hs as [He Hl]. split; [intros E; congruence|].
      intros E. congruence.
    + split; [cbn; discriminate|]. cbn. intros E. congruence.
  - congruence.
  - intros _. cbn [result]. rewrite Hr. cbn. split; discriminate.
Qed.

(** When the program section is not valid, the sections end by [return]
    with the not-valid message and make no call. *)
Lemma upload_sections_not_valid (program_name program_text pg_string : string)
    (open_program : bool) (f : frame C) :
  find_section program_text program_name "program" = Ok pg_string ->
  is_pg_valid pg_string = Ok false ->
  upload_sections program_name program_text open_program f =
  (Return,
   {| client := client f; issued := issued f;
      result := set_error_message (Some (not_valid_message program_name)) (result f) |}).
Proof.
  intros Hs Hv. unfold upload_sections, bind, lift. rewrite Hs.
  destruct pg_string as [|a s]; [discriminate|].
  cbn [truthy String.eqb negb]. rewrite Hv. reflexivity.
Qed.

(** X3.  When the program section is found and [is_pg_valid] rejects it,
    [upload_program] pushes nothing, neither the program nor the points,
    and primes nothing; [program_uploaded], [program_loaded] and the four
    flags of the points are false; the [error_message] is the not-valid
    message when the conflict resolution ended normally, and the message
    of the exception that ended it otherwise. *)
Theorem upload_program_not_valid (self : C) (program_name program_text pg_string : string)
    (open_program : bool) :
  find_section program_text program_name "program" = Ok pg_string ->
  is_pg_valid pg_string = Ok false ->
  let f := upload_program self program_name program_text open_program in
  forallb is_conflict_call (issued f) = true
  /\ program_uploaded (result f) = false
  /\ program_loaded (result f) = false
  /\ trans_points_uploaded (result f) = false
  /\ trans_points_exist (result f) = false
  /\ joints_points_uploaded (result f) = false
  /\ joints_points_exist (result f) = false
  /\ match fst (resolve_conflicts program_name (enter self)) with
     | Next _ => error_message (result f) = Some (not_valid_message program_name)
     | Return => False
     | Except msg => error_message (result f) = Some msg
     end.
Proof.
  intros Hs Hv. cbv zeta. unfold upload_program. rewrite upload_program_try_split.
  destruct (resolve_conflicts_inert program_name (enter self)) as [Hr Hf].
  destruct (resolve_conflicts_traces program_name (enter self)) as [t [Ht Pt]].
  destruct (resolve_conflicts program_name (enter self)) as [[[]| |msg] f1];
    cbn [fst snd] in *.
  - rewrite (upload_sections_not_valid _ _ _ _ _ Hs Hv).
    cbn [result issued]. rewrite Hr, Ht. cbn. repeat split; auto.
  - congruence.
  - cbn [result issued]. rewrite Hr, Ht. cbn. repeat split; auto.
Qed.

End UploadResults.

(** ** More on the section extractor *)

Ltac block_facts :=
  repeat split; auto;
  repeat (constructor; unfold not_end, not_opening; auto).

(** A scan that has found an opening delimiter ends at the first [.END]
    line; the section then starts at the delimiter found, or at a later
    one that stands before that line. *)
Lemma find_section_loop_opened (program_name : string) (t : SectionType)
    (lines : list string) (i s0 s e : nat) :
  find_section_loop program_name (keyword t) lines i (Some s0) = Ok (Some s, Some e) ->
  (exists body en post,
      lines = body ++ en :: post
      /\ Forall (fun l => not_opening program_name t l /\ not_end l) body
      /\ is_end en = true)
  \/ (exists mid op body en post,
         lines = mid ++ op :: body ++ en :: post
         /\ Forall not_end mid
         /\ is_opening program_name t op = true
         /\ Forall (fun l => not_opening program_name t l /\ not_end l) body
         /\ is_end en = true).
Proof.
  revert i s0. induction lines as [|l lines IH]; intros i s0; [discriminate|].
  rewrite find_section_loop_cons. cbv zeta.
  destruct (is_opening program_name t l) eqn:Ho.
  - pose proof (opening_not_end _ _ _ Ho) as Hne. rewrite Hne. intros E. right.
    destruct (IH _ _ E) as [[body [en [post [El [Hb He]]]]]
                           |[mid [op [body [en [post [El [Hm [Hop [Hb He]]]]]]]]]].
    + exists [], l, body, en, post. subst. block_facts.
    + exists (l :: mid), op, body, en, post. subst. block_facts.
  - destruct (is_end l) eqn:Hend.
    + intros _. left. exists [], l, lines. block_facts.
    + intros E.
      destruct (IH _ _ E) as [[body [en [post [El [Hb He]]]]]
                             |[mid [op [body [en [post [El [Hm [Hop [Hb He]]]]]]]]]].
      * left. exists (l :: body), en, post. subst. block_facts.
      * right. exists (l :: mid), op, body, en, post. subst. block_facts.
Qed.

(** A scan that ends with a section has read a block. *)
Lemma find_section_loop_closed (program_name : string) (t : SectionType)
    (lines : list string) (i s e : nat) :
  find_section_loop program_name (keyword t) lines i None = Ok (Some s, Some e) ->
  exists before mid op body en post,
    lines = before ++ mid ++ op :: body ++ en :: post
    /\ Forall (not_opening program_name t) before
    /\ Forall not_end mid
    /\ is_opening program_name t op = true
    /\ Forall (fun l => not_opening program_name t l /\ not_end l) body
    /\ is_end en = true.
Proof.
  revert i. induction lines as [|l lines IH]; intros i; [discriminate|].
  rewrite find_section_loop_cons. cbv zeta.
  destruct (is_opening program_name t l) eqn:Ho.
  - pose proof (opening_not_end _ _ _ Ho) as Hne. rewrite Hne. intros E.
    destruct (find_section_loop_opened _ _ _ _ _ _ _ E)
      as [[body [en [post [El [Hb He]]]]]
         |[mid [op [body [en [post [El [Hm [Hop [Hb He]]]]]]]]]].
    + exists [], [], l, body, en, post. subst. block_facts.
    + exists [], (l :: mid), op, body, en, post. subst. block_facts.
  - intros E.
    destruct (IH _ E) as [before [mid [op [body [en [post [El [Hb [Hm [Hop [Hbd He]]]]]]]]]]].
    exists (l :: before), mid, op, body, en, post. subst. block_facts.
Qed.

(** After an opening delimiter the scan ends at the first [.END] line. *)
Lemma find_section_loop_ends (program_name : string) (t : SectionType)
    (mid post : list string) (en : string) (i s0 : nat) :
  is_end en = true ->
  exists s e,
    find_section_loop program_name (keyword t) (mid ++ en :: post) i (Some s0)
    = Ok (Some s, Some e).
Proof.
  intros He. revert i s0. induction mid as [|l mid IH]; intros i s0.
  - cbn [app]. rewrite find_section_loop_cons, He. cbv zeta.
    destruct (is_opening program_name t en); eexists; eexists; reflexivity.
  - cbn [app]. rewrite find_section_loop_cons. cbv zeta.
    destruct (is_opening program_name t l).
    + destruct (is_end l); [eexists; eexists; reflexivity|apply IH].
    + destruct (is_end l); [eexists; eexists; reflexivity|apply IH].
Qed.

(** The scan finds a section as soon as an opening delimiter is followed
    by an [.END] line. *)
Lemma find_section_loop_finds (program_name : string) (t : SectionType)
    (pre mid post : list string) (op en : string) (i : nat) (st : option nat) :
  is_opening program_name t op = true ->
  is_end en = true ->
  exists s e,
    find_section_loop program_name (keyword t) (pre ++ op :: mid ++ en :: post) i st
    = Ok (Some s, Some e).
Proof.
  intros Ho He. revert i st. induction pre as [|l pre IH]; intros i st.
  - cbn [app]. rewrite find_section_loop_cons, Ho. cbv zeta.
    rewrite (opening_not_end _ _ _ Ho). apply find_section_loop_ends, He.
  - cbn [app]. rewrite find_section_loop_cons. cbv zeta.
    destruct (if is_opening program_name t l then Some i else st).
    + destruct (is_end l); [eexists; eexists; reflexivity|apply IH].
    + apply IH.
Qed.

Lemma opening_truthy (program_name : string) (t : SectionType) (line : string) :
  is_opening program_name t line = true -> truthy line = true.
Proof. destruct line; [destruct t; discriminate|reflexivity]. Qed.

Lemma join_block_truthy (op : string) (rest : list string) :
  truthy op = true -> truthy (join NL (op :: rest)) = true.
Proof.
  destruct op as [|a op]; [discriminate|]. intros _.
  destruct rest; reflexivity.
Qed.

(** X7.  [find_section] returns, for each of the three section types,
    the empty string or a block of consecutive lines of the text: an
    opening delimiter, lines that neither open nor close, and a line that
    starts with [.END].  It returns the empty string exactly when no
    opening delimiter of the text is followed by a line that starts with
    [.END]. *)
Theorem find_section_shape (content program_name : string) (t : SectionType) :
  exists s,
    find_section content program_name (keyword t) = Ok s
    /\ (s = ""
        \/ exists pre op body en post,
             split nl content = pre ++ op :: body ++ en :: post
             /\ is_opening program_name t op = true
             /\ Forall (fun l => not_opening program_name t l /\ not_end l) body
             /\ is_end en = true
             /\ s = join NL (op :: body ++ [en]))
    /\ (s = "" <->
        forall pre op mid en post,
          split nl content = pre ++ op :: mid ++ en :: post ->
          is_opening program_name t op = true -> is_end en = false).
Proof.
  destruct (find_section_returns content program_name t) as [s Es].
  exists s. split; [exact Es|].
  assert (Hshape :
    s = "" \/
    exists before mid op body en post,
      split nl content = before ++ mid ++ op :: body ++ en :: post
      /\ Forall (not_opening program_name t) before
      /\ Forall not_end mid
      /\ is_opening program_name t op = true
      /\ Forall (fun l => not_opening program_name t l /\ not_end l) body
      /\ is_end en = true).
  { unfold find_section in Es.
    destruct (find_section_loop program_name (keyword t) (split nl content) 0 None)
      as [[[a|] [b|]]|msg] eqn:El; try (left; congruence).
    right. exact (find_section_loop_closed _ _ _ _ _ _ El). }
  split.
  - destruct Hshape as [->|[before [mid [op [body [en [post [El [Hb [Hm [Ho [Hbd He]]]]]]]]]]]];
      [left; reflexivity|right].
    exists (before ++ mid), op, body, en, post.
    rewrite <- app_assoc. repeat split; auto.
    pose proof (find_section_block content program_name t before mid body post op en
                  El Hb Hm Ho Hbd He) as E.
    congruence.
  - split.
    + intros -> pre op mid en post El Ho.
      destruct (is_end en) eqn:He; [|reflexivity].
      destruct (find_section_loop_finds program_name t pre mid post op en 0 None Ho He)
        as [a [b Eab]].
      rewrite <- El in Eab.
      destruct (find_section_loop_closed _ _ _ _ _ _ Eab)
        as [before [mid' [op' [body [en' [post' [El' [Hb [Hm [Ho' [Hbd He']]]]]]]]]]].
      pose proof (find_section_block content program_name t before mid' body post' op' en'
                    El' Hb Hm Ho' Hbd He') as E.
      rewrite Es in E.
      assert (E' : "" = join NL (op' :: body ++ [en'])) by congruence.
      pose proof (join_block_truthy op' (body ++ [en'])
                    (opening_truthy _ _ _ Ho')) as X.
      rewrite <- E' in X. discriminate.
    + intros Hno.
      destruct Hshape as [->|[before [mid [op [body [en [post [El [Hb [Hm [Ho [Hbd He]]]]]]]]]]]];
        [reflexivity|].
      rewrite app_assoc in El.
      specialize (Hno _ _ _ _ _ El Ho). congruence.
Qed.

(** X8.  [find_section] is idempotent on every text, for each of the
    three section types: applied to what it returned, it returns the
    same. *)
Theorem find_section_idempotent (content program_name s : string) (t : SectionType) :
  find_section content program_name (keyword t) = Ok s ->
  find_section s program_name (keyword t) = Ok s.
Proof.
  intros Es. unfold find_section in Es.
  destruct (find_section_loop program_name (keyword t) (split nl content) 0 None)
    as [[[a|] [b|]]|msg] eqn:El;
    try (injection Es as <-; destruct t; reflexivity); try discriminate.
  destruct (find_section_loop_closed _ _ _ _ _ _ El)
    as [before [mid [op [body [en [post [Hl [Hb [Hm [Ho [Hbd He]]]]]]]]]]].
  pose proof (find_section_block content program_name t before mid body post op en
                Hl Hb Hm Ho Hbd He) as E.
  unfold find_section in E. rewrite El in E. rewrite Es in E.
  assert (E' : s = join NL (op :: body ++ [en])) by congruence.
  rewrite E'. clear E E' Es.
  apply (find_section_block _ program_name t [] [] body [] op en);
    try assumption; try constructor.
  unfold NL. apply split_join; [discriminate|].
  pose proof (split_lines_free nl content) as Hfree. rewrite Hl in Hfree.
  apply Forall_app in Hfree as [_ Hfree].
  apply Forall_app in Hfree as [_ Hfree].
  inversion Hfree as [|? ? Hop Hrest]; subst.
  apply Forall_app in Hrest as [Hbody Hrest].
  inversion Hrest as [|? ? Hen _]; subst.
  constructor; [exact Hop|].
  apply Forall_app. split; [exact Hbody|]. constructor; [exact Hen|constructor].
Qed.

(** X9.  For a [section_type] other than ["program"], ["trans"] and
    ["joints"], [find_section] raises [ValueError] with the message
    "Invalid section type" followed by the type, on every text; also on
    the empty text. *)
Theorem find_section_invalid_type (content program_name section_type : string) :
  section_type <> "program" ->
  section_type <> "trans" ->
  section_type <> "joints" ->
  find_section content program_name section_type
  = Raise ("Invalid section type" ++ section_type)%string.
Proof.
  intros Hp Ht Hj. unfold find_section.
  destruct (split nl content) as [|l rest] eqn:El.
  - exfalso. exact (split_not_nil nl content El).
  - cbn [find_section_loop].
    apply String.eqb_neq in Hp, Ht, Hj. rewrite Hp, Ht, Hj. reflexivity.
Qed.

(** X10.  The trans points and the joints points are found without
    regard to the name of the program: for these two section types
    [find_section] returns the same for every name. *)
Theorem find_section_points_any_name (content name1 name2 : string) (t : SectionType) :
  t <> Program ->
  find_section content name1 (keyword t) = find_section content name2 (keyword t).
Proof.
  intros Ht. unfold find_section.
  assert (E : forall lines i st,
             find_section_loop name1 (keyword t) lines i st
             = find_section_loop name2 (keyword t) lines i st).
  { induction lines as [|l lines IH]; intros i st; [reflexivity|].
    rewrite !find_section_loop_cons.
    assert (Ho : is_opening name1 t l = is_opening name2 t l)
      by (destruct t; [congruence|reflexivity|reflexivity]).
    rewrite Ho. cbv zeta.
    destruct (if is_opening name2 t l then Some i else st);
      [destruct (is_end l)|]; auto. }
  rewrite E. reflexivity.
Qed.

(** ** More on the statement validator *)

Lemma split_append (sep : ascii) (a b : string) :
  split sep (a ++ String sep b)%string = split sep a ++ split sep b.
Proof.
  induction a as [|c a IH]; cbn [String.append split app].
  - rewrite Ascii.eqb_refl. reflexivity.
  - destruct (Ascii.eqb c sep); [rewrite IH; reflexivity|].
    rewrite IH. destruct (split sep a) as [|h t] eqn:Ea.
    + exfalso. exact (split_not_nil sep a Ea).
    + reflexivity.
Qed.

(** X11.  [is_pg_valid] never raises, and a text made of two texts on
    separate lines is valid exactly when both texts are valid. *)
Theorem is_pg_valid_concat (a b : string) :
  exists va vb,
    is_pg_valid a = Ok va
    /\ is_pg_valid b = Ok vb
    /\ is_pg_valid (a ++ NL ++ b)%string = Ok (va && vb).
Proof.
  unfold is_pg_valid, NL. cbn [String.append].
  rewrite split_append, !is_pg_valid_loop_forallb, forallb_app.
  eexists. eexists. repeat split.
Qed.

(** ** Threads *)

Section Threads.

Context {C : Type} `{TelnetClient C}.

Lemma lshift_one (n : Z) :
  (1 <= n)%Z -> lshift 1 (n - 1) = Ok (Z.shiftl 1 (n - 1)).
Proof.
  intros Hn. unfold lshift.
  destruct (n - 1 <? 0)%Z eqn:E; [|reflexivity]. apply Z.ltb_lt in E. lia.
Qed.

Lemma lshift_below_one (n : Z) :
  (n < 1)%Z -> lshift 1 (n - 1) = Raise "negative shift count".
Proof.
  intros Hn. unfold lshift.
  destruct (n - 1 <? 0)%Z eqn:E; [reflexivity|]. apply Z.ltb_ge in E. lia.
Qed.

Lemma testbit_shiftl_one (n k : Z) :
  (0 <= n)%Z -> Z.testbit (Z.shiftl 1 n) k = (k =? n)%Z.
Proof.
  intros Hn. destruct (Z_lt_le_dec k 0) as [Hk|Hk].
  - rewrite Z.testbit_neg_r by exact Hk.
    apply eq_sym, Z.eqb_neq. lia.
  - rewrite Z.shiftl_spec by exact Hk.
    destruct (Z.eqb_spec k n) as [->|Hne].
    + rewrite Z.sub_diag. reflexivity.
    + destruct (Z_lt_le_dec (k - n) 0) as [Hlt|Hge].
      * apply Z.testbit_neg_r, Hlt.
      * change 1%Z with (Z.ones 1). rewrite Z.testbit_ones by lia.
        apply andb_false_iff. right. apply Z.ltb_ge. lia.
Qed.

(** X12.  [stop_and_kill_pc] with a thread number of at least 1 issues
    the abort and then the kill of that thread, both with the mask
    [1 << (thread_num - 1)], and stops at the abort when it raises; with a
    thread number below 1 it raises and issues nothing. *)
Theorem stop_and_kill_pc_runs (self : C) (thread_num : Z) :
  ((1 <= thread_num)%Z ->
   let mask := Z.shiftl 1 (thread_num - 1) in
   let '(done, failure, c) := run [Pc_abort mask; Pc_kill mask] self in
   stop_and_kill_pc self thread_num =
   (flow_of failure, {| client := c; issued := done; result := UploadResult_new |}))
  /\ ((thread_num < 1)%Z ->
      stop_and_kill_pc self thread_num = (Except "negative shift count", enter self)).
Proof.
  split; intros Hn; unfold stop_and_kill_pc.
  - cbv zeta. rewrite (lshift_one _ Hn).
    unfold bind, lift, call, enter. run_client; reflexivity.
  - rewrite (lshift_below_one _ Hn). reflexivity.
Qed.

(** X13.  [get_status_pc] with a thread number of at least 1 asks for
    the status with a mask whose only bit is the bit [thread_num - 1];
    with a thread number below 1 it raises and asks nothing; without
    thread number it asks with the mask 31, whose bits are the bits 0 to
    4, those of the threads 1 to 5. *)
Theorem get_status_pc_mask (self : C) (thread_num : Z) :
  ((1 <= thread_num)%Z ->
   exists mask,
     issued (snd (get_status_pc (Some thread_num) (enter self))) = [Get_pc_status mask]
     /\ forall k, Z.testbit mask k = (k =? thread_num - 1)%Z)
  /\ ((thread_num < 1)%Z ->
      get_status_pc (Some thread_num) (enter self)
      = (Except "negative shift count", enter self))
  /\ issued (snd (get_status_pc None (enter self))) = [Get_pc_status 31]
  /\ (forall k, Z.testbit 31 k = (0 <=? k)%Z && (k <? 5)%Z).
Proof.
  split; [|split; [|split]].
  - intros Hn. exists (Z.shiftl 1 (thread_num - 1)). split.
    + unfold get_status_pc. rewrite (lshift_one _ Hn).
      unfold bind, lift, call, enter. run_client; reflexivity.
    + intros k. apply testbit_shiftl_one. lia.
  - intros Hn. unfold get_status_pc. rewrite (lshift_below_one _ Hn). reflexivity.
  - unfold get_status_pc, call, enter. run_client; reflexivity.
  - intros k. change 31%Z with (Z.ones 5). apply Z.testbit_ones. lia.
Qed.

(** X14.  The masks of two threads with different numbers, both at
    least 1, have no bit in common; and the mask of a thread is within the
    mask 31 that [get_status_pc] asks with by default exactly when its
    number is at most 5. *)
Theorem thread_mask_disjoint (e1 e2 : Status) :
  (1 <= thread_num e1)%Z ->
  (1 <= thread_num e2)%Z ->
  (thread_num e1 <> thread_num e2 -> Z.land (thread_mask e1) (thread_mask e2) = 0%Z)
  /\ (Z.land 31 (thread_mask e1) = thread_mask e1 <-> (thread_num e1 <= 5)%Z).
Proof.
  intros H1 H2. unfold thread_mask. split.
  - intros Hne. apply Z.bits_inj'. intros k Hk.
    rewrite Z.land_spec, !testbit_shiftl_one, Z.bits_0 by lia.
    destruct (Z.eqb_spec k (thread_num e1 - 1)), (Z.eqb_spec k (thread_num e2 - 1));
      try reflexivity. lia.
  - split.
    + intros E.
      assert (X : Z.testbit (Z.land 31 (Z.shiftl 1 (thread_num e1 - 1)))
                    (thread_num e1 - 1) = true).
      { rewrite E, testbit_shiftl_one by lia. apply Z.eqb_refl. }
      rewrite Z.land_spec in X. apply andb_true_iff in X as [X _].
      change 31%Z with (Z.ones 5) in X. rewrite Z.testbit_ones in X by lia.
      apply andb_true_iff in X as [_ X]. apply Z.ltb_lt in X. lia.
    + intros Hle. apply Z.bits_inj'. intros k Hk.
      rewrite Z.land_spec, testbit_shiftl_one by lia.
      destruct (Z.eqb_spec k (thread_num e1 - 1)) as [->|Hne];
        [|apply andb_false_r].
      change 31%Z with (Z.ones 5). rewrite Z.testbit_ones by lia.
      rewrite andb_true_r. apply andb_true_iff. split.
      * apply Z.leb_le. lia.
      * apply Z.ltb_lt. lia.
Qed.

End Threads.

(** ** More on the deletion *)

Section DeletionCases.

Context {C : Type} `{TelnetClient C}.

Lemma rcp_stop_issue (rcp_status : Status) (g : frame C) :
  ((if is_running rcp_status then call Rcp_hold rcp_hold else ret tt) ;;
   call Kill_rcp kill_rcp) g
  = issue (rcp_plan (is_running rcp_status)) g.
Proof.
  unfold rcp_plan.
  destruct (is_running rcp_status); cbn [app issue]; unfold bind, call, ret;
    cbn [perform];
    repeat match goal with
    | |- context [rcp_hold ?c] => destruct (rcp_hold c) as [[[]|?] ?]
    | |- context [kill_rcp ?c] => destruct (kill_rcp c) as [[[]|?] ?]
    end; reflexivity.
Qed.

(** X15.  [delete_programs] with an empty list makes no call, with
    [force] or without; without [force] it asks for no status and stops no
    program: its calls are one delete for each name, in the order of the
    list, up to and including the first that raises. *)
Theorem delete_programs_plain (self : C) (pg_list : list string) (force : bool) :
  delete_programs self [] force = (Return, enter self)
  /\ (pg_list <> [] ->
      let '(done, failure, c) := run (map Pg_delete pg_list) self in
      delete_programs self pg_list false =
      (flow_of failure, {| client := c; issued := done; result := UploadResult_new |})).
Proof.
  split; [reflexivity|].
  intros Hne. unfold delete_programs.
  destruct pg_list as [|n0 l0] eqn:El; [congruence|]. rewrite <- El.
  assert (Hlen : (List.length pg_list =? 0)%nat = false) by (rewrite El; reflexivity).
  rewrite Hlen. unfold bind at 1 2. cbn [ret].
  rewrite for_each_delete, issue_run. cbn [enter client issued result app].
  destruct (run (map Pg_delete pg_list) self) as [[done failure] c]. reflexivity.
Qed.

Lemma bind_call_ok {A B : Type} (ev : Call) (op : C -> outcome A * C)
    (k : A -> M C B) (f : frame C) (a : A) (c : C) :
  op (client f) = (Ok a, c) ->
  bind (call ev op) k f
  = k a {| client := c; issued := issued f ++ [ev]; result := result f |}.
Proof. intros E. unfold bind, call. rewrite E. reflexivity. Qed.

Lemma bind_call_raise {A B : Type} (ev : Call) (op : C -> outcome A * C)
    (k : A -> M C B) (f : frame C) (msg : string) (c : C) :
  op (client f) = (Raise msg, c) ->
  bind (call ev op) k f
  = (Except msg, {| client := c; issued := issued f ++ [ev]; result := result f |}).
Proof. intros E. unfold bind, call. rewrite E. reflexivity. Qed.

Lemma bind_same {A B : Type} (m m' : M C A) (k k' : A -> M C B) (f : frame C) :
  m f = m' f -> (forall a g, k a g = k' a g) -> bind m k f = bind m' k' f.
Proof.
  intros Em Ek. unfold bind. rewrite Em.
  destruct (m' f) as [[a| |msg] g]; auto.
Qed.

(** The calls of [delete_programs] with [force] after a status query
    that returned. *)
Lemma delete_programs_force_issue (self : C) (pg_list : list string)
    (rcp_status : Status) (c1 : C) :
  pg_list <> [] ->
  get_rcp_status self = (Ok rcp_status, c1) ->
  delete_programs self pg_list true =
  issue ((if is_exist rcp_status && existsb (String.eqb (name rcp_status)) pg_list
          then rcp_plan (is_running rcp_status) else [])
         ++ map Pg_delete pg_list)
    {| client := c1; issued := [Get_rcp_status]; result := UploadResult_new |}.
Proof.
  intros Hne Hrcp. unfold delete_programs.
  destruct pg_list as [|n0 l0] eqn:El; [congruence|]. rewrite <- El.
  assert (Hlen : (List.length pg_list =? 0)%nat = false) by (rewrite El; reflexivity).
  rewrite Hlen.
  change ((ret tt ;; ?k) (enter self)) with (k (enter self)).
  rewrite bind_assoc.
  rewrite (bind_call_ok _ _ _ _ rcp_status c1) by exact Hrcp.
  cbn [enter client issued result app].
  rewrite issue_app.
  apply bind_same; [|intros [] g; apply for_each_delete].
  destruct (is_exist rcp_status); [|reflexivity]. cbn [andb].
  destruct (existsb (String.eqb (name rcp_status)) pg_list); [|reflexivity].
  apply rcp_stop_issue.
Qed.

(** X16.  [delete_programs] with [force] on a list that is not empty
    asks for the status of the continuous-path program first.  When the
    query raises, nothing is deleted.  When it returns, the hold (if
    running) and the kill are issued only if the program exists and its
    name is in the list, letter for letter; then comes one delete for each
    name, in the order of the list; the calls stop at the first that
    raises. *)
Theorem delete_programs_force (self : C) (pg_list : list string) :
  pg_list <> [] ->
  match get_rcp_status self with
  | (Raise msg, c1) =>
      delete_programs self pg_list true =
      (Except msg,
       {| client := c1; issued := [Get_rcp_status]; result := UploadResult_new |})
  | (Ok rcp_status, c1) =>
      let plan :=
        (if is_exist rcp_status && existsb (String.eqb (name rcp_status)) pg_list
         then rcp_plan (is_running rcp_status) else [])
        ++ map Pg_delete pg_list in
      let '(done, failure, c) := run plan c1 in
      delete_programs self pg_list true =
      (flow_of failure,
       {| client := c; issued := Get_rcp_status :: done; result := UploadResult_new |})
  end.
Proof.
  intros Hne.
  destruct (get_rcp_status self) as [[rcp_status|msg] c1] eqn:Hrcp.
  - cbv zeta.
    rewrite (delete_programs_force_issue self pg_list rcp_status c1 Hne Hrcp).
    rewrite issue_run. cbn [client issued result app].
    match goal with |- context [run ?p c1] => destruct (run p c1) as [[done failure] c] end.
    reflexivity.
  - unfold delete_programs.
    destruct pg_list as [|n0 l0] eqn:El; [congruence|]. rewrite <- El.
    assert (Hlen : (List.length pg_list =? 0)%nat = false) by (rewrite El; reflexivity).
    rewrite Hlen.
    change ((ret tt ;; ?k) (enter self)) with (k (enter self)).
    rewrite bind_assoc.
    rewrite (bind_call_raise _ _ _ _ msg c1) by exact Hrcp. reflexivity.
Qed.

End DeletionCases.

(** ** The dictionary of a result *)

(** X17.  [to_dict] holds the six flags and [all_successful], and not
    the [error_message]: two results have the same dictionary exactly when
    their six flags are equal, whatever their messages. *)
Theorem to_dict_flags (r1 r2 : UploadResult) :
  to_dict r1 = to_dict r2 <->
  program_uploaded r1 = program_uploaded r2
  /\ trans_points_uploaded r1 = trans_points_uploaded r2
  /\ trans_points_exist r1 = trans_points_exist r2
  /\ joints_points_uploaded r1 = joints_points_uploaded r2
  /\ joints_points_exist r1 = joints_points_exist r2
  /\ program_loaded r1 = program_loaded r2.
Proof.
  unfold to_dict, all_successful. split.
  - intros E. injection E. intros. repeat split; assumption.
  - intros [E1 [E2 [E3 [E4 [E5 E6]]]]]. rewrite E1, E2, E3, E4, E5, E6. reflexivity.
Qed.

(** ** What the upload stops, and what its flags tell *)

Section UploadFacts.

Context {C : Type} `{TelnetClient C}.

Lemma run_In (plan : list Call) (c : C) (ev : Call) :
  In ev (fst (fst (run plan c))) -> In ev plan.
Proof.
  intros Hin. destruct (run_prefix plan c) as [rest E].
  rewrite E. apply in_or_app. left. exact Hin.
Qed.

Lemma section_plan_calls (program_name program_text : string) (open_program : bool) :
  forallb is_section_call (section_plan program_name program_text open_program) = true.
Proof.
  assert (Hopt : forall o, forallb is_section_call (optional_push o) = true).
  { intros [s|msg]; [|reflexivity]. cbn [optional_push].
    destruct (truthy s); reflexivity. }
  unfold section_plan.
  destruct (find_section program_text program_name "program") as [pg|msg]; [|reflexivity].
  destruct (truthy pg); [|reflexivity].
  destruct (is_pg_valid pg) as [[|]|msg]; try reflexivity.
  cbn [forallb is_section_call andb]. rewrite !forallb_app, !Hopt.
  destruct open_program; reflexivity.
Qed.

(** X18.  [upload_program] stops only a program of the same name: when
    both status queries return (and the first entry that holds the program
    has a thread number of at least 1), an abort or a kill of a thread is
    issued only with the mask of a status entry that exists and has the
    name of the program, whatever the case, the abort only if that entry
    is running; the hold and the kill of the continuous-path program are
    issued only if it exists and has that name, the hold only if it is
    running. *)
Theorem upload_program_stops_same_name (self : C) (program_name program_text : string)
    (open_program : bool) (pg_status_list : list Status) (rcp_status : Status)
    (c1 c2 : C) :
  get_pc_status self 31 = (Ok pg_status_list, c1) ->
  get_rcp_status c1 = (Ok rcp_status, c2) ->
  (forall element,
      find (same_program program_name) pg_status_list = Some element ->
      (1 <= thread_num element)%Z) ->
  let calls := issued (upload_program self program_name program_text open_program) in
  (forall mask, In (Pc_abort mask) calls ->
     exists element,
       In element pg_status_list /\ same_program program_name element = true
       /\ is_running element = true /\ mask = thread_mask element)
  /\ (forall mask, In (Pc_kill mask) calls ->
        exists element,
          In element pg_status_list /\ same_program program_name element = true
          /\ mask = thread_mask element)
  /\ (In Rcp_hold calls ->
        same_program program_name rcp_status = true /\ is_running rcp_status = true)
  /\ (In Kill_rcp calls -> same_program program_name rcp_status = true).
Proof.
  intros Hpc Hrcp Hnum. cbv zeta.
  pose proof (upload_program_try_run self program_name program_text open_program
                pg_status_list rcp_status c1 c2 Hpc Hrcp Hnum) as Hmain.
  rewrite upload_program_issued.
  assert (Hin : forall ev,
             In ev (issued (snd (upload_program_try program_name program_text
                                   open_program (enter self)))) ->
             is_section_call ev = false ->
             ev <> Get_pc_status 31 -> ev <> Get_rcp_status ->
             In ev (conflict_plan program_name pg_status_list rcp_status)).
  { intros ev Hev Hsec Hn1 Hn2.
    pose proof (run_In (conflict_plan program_name pg_status_list rcp_status
                        ++ section_plan program_name program_text open_program)
                  c2 ev) as Hrun.
    destruct (run (conflict_plan program_name pg_status_list rcp_status
                   ++ section_plan program_name program_text open_program) c2)
      as [[done failure] c]; cbn [fst] in Hrun.
    destruct Hmain as [Hi _]. rewrite Hi in Hev.
    destruct Hev as [Hev|[Hev|Hev]]; try congruence.
    apply Hrun in Hev. apply in_app_or in Hev as [Hev|Hev]; [exact Hev|].
    pose proof (section_plan_calls program_name program_text open_program) as Hs.
    rewrite forallb_forall in Hs. specialize (Hs ev Hev). congruence. }
  assert (Hplan : forall ev,
             In ev (conflict_plan program_name pg_status_list rcp_status) ->
             (exists element,
                 find (same_program program_name) pg_status_list = Some element
                 /\ (ev = Pc_kill (thread_mask element)
                     \/ (ev = Pc_abort (thread_mask element)
                         /\ is_running element = true)))
             \/ (same_program program_name rcp_status = true
                 /\ (ev = Kill_rcp \/ (ev = Rcp_hold /\ is_running rcp_status = true)))).
  { intros ev Hev. unfold conflict_plan, thread_plan, rcp_plan in Hev.
    apply in_app_or in Hev as [Hev|Hev].
    - left.
      destruct (find (same_program program_name) pg_status_list) as [e|];
        [|destruct Hev].
      exists e. split; [reflexivity|].
      destruct (is_running e); cbn in Hev; intuition congruence.
    - right.
      destruct (same_program program_name rcp_status); [|destruct Hev].
      split; [reflexivity|].
      destruct (is_running rcp_status); cbn in Hev; intuition congruence. }
  split; [|split; [|split]].
  - intros mask Hev.
    destruct (Hplan _ (Hin _ Hev eq_refl ltac:(discriminate) ltac:(discriminate)))
      as [[e [Hf [E|[E Hr]]]]|[_ [E|[E _]]]]; try discriminate.
    exists e. apply find_some in Hf as [Hf1 Hf2].
    repeat split; auto. congruence.
  - intros mask Hev.
    destruct (Hplan _ (Hin _ Hev eq_refl ltac:(discriminate) ltac:(discriminate)))
      as [[e [Hf [E|[E Hr]]]]|[_ [E|[E _]]]]; try discriminate.
    exists e. apply find_some in Hf as [Hf1 Hf2].
    repeat split; auto. congruence.
  - intros Hev.
    destruct (Hplan _ (Hin _ Hev eq_refl ltac:(discriminate) ltac:(discriminate)))
      as [[e [Hf [E|[E Hr]]]]|[Hs [E|[E Hr]]]]; try discriminate. auto.
  - intros Hev.
    destruct (Hplan _ (Hin _ Hev eq_refl ltac:(discriminate) ltac:(discriminate)))
      as [[e [Hf [E|[E Hr]]]]|[Hs [E|[E Hr]]]]; try discriminate. exact Hs.
Qed.

(** What the flags of the sections tell, from a fresh [result]. *)
Lemma upload_sections_sent (program_name program_text : string)
    (open_program : bool) (f : frame C) :
  result f = UploadResult_new ->
  let f' := snd (upload_sections program_name program_text open_program f) in
  (program_uploaded (result f') = true ->
   exists pg_string,
     find_section program_text program_name "program" = Ok pg_string
     /\ is_pg_valid pg_string = Ok true
     /\ In (Upload_program (utf8 pg_string)) (issued f'))
  /\ (trans_points_uploaded (result f') = true ->
      exists s, find_section program_text program_name "trans" = Ok s
                /\ In (Upload_program (utf8 s)) (issued f'))
  /\ (joints_points_uploaded (result f') = true ->
      exists s, find_section program_text program_name "joints" = Ok s
                /\ In (Upload_program (utf8 s)) (issued f'))
  /\ (program_loaded (result f') = true -> In (Rcp_prime program_name) (issued f')).
Proof.
  intros Hr. cbv zeta.
  run_sections; rewrite ?Hr; cbn [program_uploaded trans_points_uploaded
    joints_points_uploaded program_loaded set_program_uploaded
    set_trans_points_uploaded set_trans_points_exist set_joints_points_uploaded
    set_joints_points_exist set_program_loaded set_error_message UploadResult_new];
    repeat split; intros E; try discriminate;
    try (eexists; repeat split; try reflexivity; try eassumption);
    rewrite ?in_app_iff; cbn [In]; tauto.
Qed.

(** X19.  The flags of a result tell what was sent: with
    [program_uploaded] the program section was found, was valid and its
    bytes were pushed; with [trans_points_uploaded] or
    [joints_points_uploaded] the bytes of that section were pushed; with
    [program_loaded] the [rcp_prime] of the program was issued. *)
Theorem upload_program_flags_sent (self : C) (program_name program_text : string)
    (open_program : bool) :
  let f := upload_program self program_name program_text open_program in
  (program_uploaded (result f) = true ->
   exists pg_string,
     find_section program_text program_name "program" = Ok pg_string
     /\ is_pg_valid pg_string = Ok true
     /\ In (Upload_program (utf8 pg_string)) (issued f))
  /\ (trans_points_uploaded (result f) = true ->
      exists s, find_section program_text program_name "trans" = Ok s
                /\ In (Upload_program (utf8 s)) (issued f))
  /\ (joints_points_uploaded (result f) = true ->
      exists s, find_section program_text program_name "joints" = Ok s
                /\ In (Upload_program (utf8 s)) (issued f))
  /\ (program_loaded (result f) = true -> In (Rcp_prime program_name) (issued f)).
Proof.
  cbv zeta. unfold upload_program. rewrite upload_program_try_split.
  destruct (resolve_conflicts_inert program_name (enter self)) as [Hr Hf].
  destruct (resolve_conflicts program_name (enter self)) as [[[]| |msg] f1];
    cbn [fst snd] in Hr, Hf.
  - pose proof (upload_sections_sent program_name program_text open_program f1 Hr)
      as Hs. cbv zeta in Hs.
    destruct (upload_sections program_name program_text open_program f1)
      as [[[]| |msg] f2]; cbn [snd result issued] in *; exact Hs.
  - congruence.
  - cbn [result]. rewrite Hr. cbn. repeat split; discriminate.
Qed.

End UploadFacts.

(** ** The further properties on the scripted client *)

Lemma upload_program_all_successful_witness :
  all_successful (set_trans_points_exist true (set_program_uploaded true UploadResult_new))
  = false.
Proof.
  destruct (all_successful
              (set_trans_points_exist true (set_program_uploaded true UploadResult_new)))
    eqn:E; [|reflexivity].
  apply (proj1 (upload_program_all_successful (idle None) "TEST1" test1_with_trans false))
    in E.
  destruct E as [_ [E _]]. discriminate (E eq_refl).
Defined.

Lemma upload_program_no_error_witness :
  let r := result (upload_program (idle None) "TEST1" test1_with_trans true) in
  program_uploaded r = true
  /\ program_loaded r = true
  /\ trans_points_uploaded r = true
  /\ joints_points_uploaded r = false
  /\ all_successful r = true.
Proof.
  exact (proj1 (upload_program_no_error (idle None) "TEST1" test1_with_trans true)
           eq_refl).
Defined.

Lemma upload_program_not_valid_witness :
  let f := upload_program (thread2_running None) "TEST1" test1_not_valid true in
  forallb is_conflict_call (issued f) = true
  /\ program_uploaded (result f) = false
  /\ error_message (result f) = Some (not_valid_message "TEST1").
Proof.
  pose proof (upload_program_not_valid (thread2_running None) "TEST1" test1_not_valid
                (join NL [".PROGRAM TEST1()"; "  SETCONDW 1=abc"; ".END"]) true
                eq_refl eq_refl) as X.
  cbv zeta in X. destruct X as [X1 [X2 [_ [_ [_ [_ [_ X8]]]]]]].
  cbv zeta. split; [exact X1|]. split; [exact X2|exact X8].
Defined.

Lemma upload_program_runs_plan_witness :
  let f := upload_program (thread2_running (Some 5)) "TEST1" test1_with_trans true in
  issued f
  = [Get_pc_status 31; Get_rcp_status; Pc_abort 2; Pc_kill 2;
     Upload_program (utf8 (join NL [".PROGRAM TEST1()"; "  SETCONDW 1=1.0"; ".END"]));
     Upload_program (utf8 (join NL [".TRANS"; "p1 0 0 0"; ".END"]))]
  /\ client f = thread2_running (Some 0)
  /\ error_message (result f) = Some "Connection lost".
Proof.
  assert (Hnum : forall element,
             find (same_program "TEST1") (pc (thread2_running (Some 5))) = Some element ->
             (1 <= thread_num element)%Z).
  { intros element E. injection E as <-. simpl. lia. }
  pose proof (upload_program_runs_plan (thread2_running (Some 5)) "TEST1"
                test1_with_trans true (pc (thread2_running (Some 5))) (vacant 0)
                (thread2_running (Some 4)) (thread2_running (Some 3))
                eq_refl eq_refl Hnum) as X.
  cbv zeta in X. vm_compute run in X. destruct X as [X1 [X2 [_ [_ X5]]]].
  cbv zeta. split; [exact X1|]. split; [exact X2|exact (X5 _ eq_refl)].
Defined.

Lemma find_section_shape_witness :
  find_section (join NL ["REM"; ".JOINTS"; "j1 0 0"]) "TEST1" "joints" = Ok "".
Proof.
  destruct (find_section_shape (join NL ["REM"; ".JOINTS"; "j1 0 0"]) "TEST1" Joints)
    as [s [Es [_ [_ Hno]]]].
  cbn [keyword] in Es. rewrite Es. f_equal. apply Hno.
  intros pre op mid en post El Ho.
  destruct (is_end en) eqn:He; [|reflexivity]. exfalso.
  assert (Hall : Forall (fun l => is_end l = false) (pre ++ op :: mid ++ en :: post)).
  { rewrite <- El. repeat constructor. }
  apply Forall_app in Hall as [_ Hall]. inversion Hall as [|? ? _ Hall']; subst.
  apply Forall_app in Hall' as [_ Hall']. inversion Hall' as [|? ? X _]; subst.
  congruence.
Defined.

Lemma find_section_idempotent_witness :
  find_section (join NL [".TRANS"; "p1 0 0 0"; ".END"]) "TEST1" "trans"
  = Ok (join NL [".TRANS"; "p1 0 0 0"; ".END"]).
Proof.
  exact (find_section_idempotent test1_with_trans "TEST1"
           (join NL [".TRANS"; "p1 0 0 0"; ".END"]) Trans eq_refl).
Defined.

Lemma find_section_invalid_type_witness :
  find_section "" "TEST1" "points" = Raise "Invalid section typepoints".
Proof.
  apply (find_section_invalid_type "" "TEST1" "points"); discriminate.
Defined.

Lemma find_section_points_any_name_witness :
  find_section test1_with_trans "TEST1" "trans"
  = find_section test1_with_trans "OTHER" "trans".
Proof.
  apply (find_section_points_any_name test1_with_trans "TEST1" "OTHER" Trans).
  discriminate.
Defined.

Lemma stop_and_kill_pc_runs_witness :
  stop_and_kill_pc (idle (Some 1)) 3
  = (Except "Connection lost",
     {| client := idle (Some 0); issued := [Pc_abort 4; Pc_kill 4];
        result := UploadResult_new |})
  /\ stop_and_kill_pc (idle None) 0 = (Except "negative shift count", enter (idle None)).
Proof.
  split.
  - assert (Hn : (1 <= 3)%Z) by lia.
    exact (proj1 (stop_and_kill_pc_runs (idle (Some 1)) 3) Hn).
  - assert (Hn : (0 < 1)%Z) by lia.
    exact (proj2 (stop_and_kill_pc_runs (idle None) 0) Hn).
Defined.

Lemma get_status_pc_mask_witness :
  (exists mask,
      issued (snd (get_status_pc (Some 3%Z) (enter (idle None)))) = [Get_pc_status mask]
      /\ forall k, Z.testbit mask k = (k =? 3 - 1)%Z)
  /\ get_status_pc (Some 0%Z) (enter (idle None))
     = (Except "negative shift count", enter (idle None)).
Proof.
  assert (H3 : (1 <= 3)%Z) by lia.
  assert (H0 : (0 < 1)%Z) by lia.
  split.
  - exact (proj1 (get_status_pc_mask (idle None) 3) H3).
  - exact (proj1 (proj2 (get_status_pc_mask (idle None) 0)) H0).
Defined.

Lemma thread_mask_disjoint_witness :
  Z.land (thread_mask (slot 2 "A" true)) (thread_mask (slot 5 "B" false)) = 0%Z.
Proof.
  assert (H2 : (1 <= thread_num (slot 2 "A" true))%Z) by (simpl; lia).
  assert (H5 : (1 <= thread_num (slot 5 "B" false))%Z) by (simpl; lia).
  apply (proj1 (thread_mask_disjoint (slot 2 "A" true) (slot 5 "B" false) H2 H5)).
  simpl. lia.
Defined.

Lemma delete_programs_plain_witness :
  delete_programs (rcp_running_A (Some 1)) ["A"; "B"] false
  = (Except "Connection lost",
     {| client := rcp_running_A (Some 0); issued := [Pg_delete "A"; Pg_delete "B"];
        result := UploadResult_new |}).
Proof.
  assert (Hne : ["A"; "B"] <> @nil string) by discriminate.
  exact (proj2 (delete_programs_plain (rcp_running_A (Some 1)) ["A"; "B"] false) Hne).
Defined.

Lemma delete_programs_force_witness :
  delete_programs (rcp_running_A None) ["a"; "B"] true
  = (Next tt,
     {| client := rcp_running_A None;
        issued := [Get_rcp_status; Pg_delete "a"; Pg_delete "B"];
        result := UploadResult_new |}).
Proof.
  assert (Hne : ["a"; "B"] <> @nil string) by discriminate.
  exact (delete_programs_force (rcp_running_A None) ["a"; "B"] Hne).
Defined.

Lemma upload_program_stops_same_name_witness :
  exists element,
    In element (pc (thread2_running None))
    /\ same_program "test1" element = true
    /\ 2%Z = thread_mask element.
Proof.
  assert (Hnum : forall element,
             find (same_program "test1") (pc (thread2_running None)) = Some element ->
             (1 <= thread_num element)%Z).
  { intros element E. injection E as <-. simpl. lia. }
  assert (Hin : In (Pc_kill 2)
                  (issued (upload_program (thread2_running None) "test1"
                             test1_with_trans false))).
  { vm_compute. tauto. }
  exact (proj1 (proj2 (upload_program_stops_same_name (thread2_running None) "test1"
                         test1_with_trans false (pc (thread2_running None)) (vacant 0)
                         (thread2_running None) (thread2_running None)
                         eq_refl eq_refl Hnum)) 2%Z Hin).
Defined.

Lemma upload_program_flags_sent_witness :
  In (Upload_program (utf8 (join NL [".TRANS"; "p1 0 0 0"; ".END"])))
     (issued (upload_program (idle None) "TEST1" test1_with_trans false)).
Proof.
  assert (Hup : trans_points_uploaded
                  (result (upload_program (idle None) "TEST1" test1_with_trans false))
                = true) by reflexivity.
  destruct (proj1 (proj2 (upload_program_flags_sent (idle None) "TEST1"
                            test1_with_trans false)) Hup) as [s [Es Hin]].
  assert (E : s = join NL [".TRANS"; "p1 0 0 0"; ".END"])
    by (vm_compute in Es; injection Es as <-; reflexivity).
  rewrite <- E. exact Hin.
Defined.
